(** * MBR partition-table analysers of [importcsv.py]

    The file [src/importcsv.py] concatenates four scripts.  The first one
    (lines 1-159) only dumps CSV files; the other three are successive
    versions of the same MBR partition-table analyser:

    - lines 162-283: [parse_mbr], [type_name], [analyze], [main]
      (module [Simple] below);
    - lines 287-479: [parse_mbr], [type_description],
      [print_partition_info], [analyze_image], [main]
      (module [Analysis] below);
    - lines 482-570: a compact rewrite of the first version
      (module [Compact] below).

    This development is a shallow embedding of the three analysers and of
    the fragment of the Python runtime they rely on, followed by the
    properties checked against them. *)

From Stdlib Require Import List NArith ZArith String Ascii QArith Lia Bool.
From Stdlib Require Import DecimalString.
From Stdlib Require Import Strings.Byte.
Import ListNotations.

Local Open Scope string_scope.
Local Open Scope N_scope.

(** ** The Python runtime fragment used by the scripts *)

(** A Python [bytes] object. *)
Definition bytes := list byte.

(** [b[lo:hi]] for [0 <= lo <= hi]: slicing never fails, it truncates. *)
Definition slice (b : bytes) (lo hi : nat) : bytes :=
  firstn (hi - lo) (skipn lo b).

(** The exceptions the scripts can meet. *)
Inductive exn : Type :=
| FileNotFoundError (msg : string)
| ValueError (msg : string)
| struct_error (msg : string).

(** A computation that returns or raises. *)
Definition result (A : Type) : Type := (exn + A)%type.

Definition bindR {A B} (c : result A) (k : A -> result B) : result B :=
  match c with
  | inl e => inl e
  | inr a => k a
  end.

(** [for x in xs: s = body(s, x)], stopping at the first exception. *)
Fixpoint for_in {A S} (xs : list A) (body : S -> A -> result S) (s : S)
  : result S :=
  match xs with
  | [] => inr s
  | x :: xs' => bindR (body s x) (for_in xs' body)
  end.

(** Standard output: the arguments of the [print] calls, oldest first. *)
Definition stdout := list string.

(** A computation that prints, then returns or raises.  What was printed
    before an exception stays printed. *)
Definition M (A : Type) : Type := stdout -> result A * stdout.

Definition ret {A} (a : A) : M A := fun out => (inr a, out).

Definition bind {A B} (c : M A) (k : A -> M B) : M B :=
  fun out =>
    match c out with
    | (inl e, out') => (inl e, out')
    | (inr a, out') => k a out'
    end.

Definition print (s : string) : M unit :=
  fun out => (inr tt, (out ++ [s])%list).

Definition raise {A} (e : exn) : M A := fun out => (inl e, out).

Definition lift {A} (r : result A) : M A := fun out => (r, out).

Declare Scope py_scope.
Delimit Scope py_scope with py.
Notation "x <- c ;; k" := (bind c (fun x => k))
  (at level 61, c at next level, right associativity) : py_scope.
Notation "' pat <- c ;; k" := (bind c (fun pat => k))
  (at level 61, pat pattern, c at next level, right associativity) : py_scope.
Notation "c ;; k" := (bind c (fun _ => k))
  (at level 61, right associativity) : py_scope.

(** [for x in xs: s = body(s, x)] in the printing monad. *)
Fixpoint for_inM {A S} (xs : list A) (body : S -> A -> M S) (s : S) : M S :=
  match xs with
  | [] => ret s
  | x :: xs' => bind (body s x) (for_inM xs' body)
  end.

(** A [for] loop whose body may [break]: the body returns the new
    state and whether it left the loop. *)
Fixpoint for_breakM {A S} (xs : list A) (body : S -> A -> M (S * bool))
  (s : S) : M S :=
  match xs with
  | [] => ret s
  | x :: xs' =>
      bind (body s x)
        (fun r => if snd r then ret (fst r) else for_breakM xs' body (fst r))
  end.

(** [range(n)]. *)
Definition range (n : nat) : list nat := seq 0 n.

(** [enumerate(xs, start)]. *)
Definition enumerate {A} (xs : list A) (start : nat) : list (nat * A) :=
  combine (seq start (List.length xs)) xs.

(** *** [struct.unpack("<B3sB3sII", part)] *)

(** A little-endian unsigned 32-bit integer (format [I] under [<]). *)
Definition le32 (b0 b1 b2 b3 : byte) : N :=
  to_N b0 + 256 * to_N b1 + 65536 * to_N b2 + 16777216 * to_N b3.

(** The format needs exactly 1+3+1+3+4+4 = 16 bytes; any other length
    raises [struct.error]. *)
Definition struct_unpack (part : bytes)
  : result (N * bytes * N * bytes * N * N) :=
  match part with
  | [s; c0; c1; c2; t; d0; d1; d2; l0; l1; l2; l3; n0; n1; n2; n3] =>
      inr (to_N s, [c0; c1; c2], to_N t, [d0; d1; d2],
           le32 l0 l1 l2 l3, le32 n0 n1 n2 n3)
  | _ => inl (struct_error "unpack requires a buffer of 16 bytes")
  end.

(** *** String formatting *)

Definition NL : string := String (ascii_of_nat 10) EmptyString.

(** [f"{n}"] for a non-negative integer. *)
Definition str_int (n : N) : string := NilZero.string_of_uint (N.to_uint n).

Definition str_nat (n : nat) : string := str_int (N.of_nat n).

(** The digits of [X] formatting, by value. *)
Definition HEX_DIGITS : string := "0123456789ABCDEF".

Definition hex_digit (d : N) : ascii :=
  match String.get (N.to_nat d) HEX_DIGITS with
  | Some c => c
  | None => "F"%char
  end.

Fixpoint hex_digits (fuel : nat) (n : N) (acc : string) : string :=
  match fuel with
  | O => acc
  | S fuel' =>
      let acc' := String (hex_digit (n mod 16)) acc in
      if n / 16 =? 0 then acc' else hex_digits fuel' (n / 16) acc'
  end.

(** [f"{n:X}"]: upper-case hexadecimal, no prefix. *)
Definition fmt_X (n : N) : string := hex_digits (S (N.to_nat (N.log2 n))) n "".

(** [f"{n:02X}"]: the same, padded with zeros to two characters. *)
Definition fmt_02X (n : N) : string :=
  let s := fmt_X n in
  match s with
  | String _ EmptyString => String "0" s
  | _ => s
  end.

(** The true division [a / b] of two non-negative integers yields the
    float nearest to the quotient.  Every division of the scripts is by
    [1024**3 = 2^30], with a dividend below [2^53]; the quotient is then
    a binary64 number and the float is that quotient exactly, kept here
    as a fraction. *)
Definition true_div (a b : N) : Q :=
  Qmake (Z.of_N a) (Z.to_pos (Z.of_N b)).

(** [f"{x:.2f}"]: the decimal with two fractional digits nearest to [x],
    ties going to the even last digit. *)
Definition fmt_2f (x : Q) : string :=
  let n := (Z.to_N (Z.abs (Qnum x)) * 100) in
  let d := Npos (Qden x) in
  let k := n / d in
  let r := n mod d in
  let k := if (d <? 2 * r) || ((2 * r =? d) && N.odd k) then k + 1 else k in
  let frac := k mod 100 in
  (if (Qnum x <? 0)%Z then "-" else "") ++
  str_int (k / 100) ++ "." ++
  (if frac <? 10 then "0" else "") ++ str_int frac.

(** [max(x :: rest, key=key)]: the first element whose key no later
    element exceeds; [gt] is the comparison [>] on keys. *)
Definition py_max {A K} (key : A -> K) (gt : K -> K -> bool)
  (x : A) (rest : list A) : A :=
  fold_left (fun best y => if gt (key y) (key best) then y else best) rest x.

(** [>] on floats and on integers. *)
Definition float_gt (x y : Q) : bool := negb (Qle_bool x y).

Definition int_gt (x y : N) : bool := y <? x.

(** [xs.index(x)]: the position of the first element equal to [x], or
    a [ValueError] (whose message, the [repr] of [x] followed by
    "is not in list", is abridged here) when there is none. *)
Fixpoint list_index {A} (eqb : A -> A -> bool) (x : A) (xs : list A)
  : result nat :=
  match xs with
  | [] => inl (ValueError "x not in list")
  | y :: xs' =>
      if eqb y x then inr O
      else bindR (list_index eqb x xs') (fun k => inr (S k))
  end.

(** [==] on [bytes]. *)
Fixpoint bytes_eqb (a b : bytes) : bool :=
  match a, b with
  | [], [] => true
  | x :: a', y :: b' => Byte.eqb x y && bytes_eqb a' b'
  | _, _ => false
  end.

(** [str(e)] for an exception built from one message. *)
Definition str_exn (e : exn) : string :=
  match e with
  | FileNotFoundError msg => msg
  | ValueError msg => msg
  | struct_error msg => msg
  end.

(** *** [str.strip()] *)





(** *** Files *)

(** The file system as the scripts see it: a path names a regular file
    with some content ([os.path.isfile] holds and [open] succeeds), or it
    does not. *)
Definition filesystem := string -> option bytes.

(** [with open(path, "rb") as f: mbr = f.read(n)] on a regular file:
    at most [n] bytes, fewer when the file is shorter. *)
Definition read_first (content : bytes) (n : nat) : bytes := firstn n content.

(** ** First analyser (lines 162-283) *)

Module Simple.

Local Open Scope py_scope.

Definition SECTOR_SIZE : N := 512.

(** The dictionary built for each slot by [parse_mbr]. *)
Record entry : Type := {
  index : nat;
  ptype : N;
  boot : bool;
  lba : N;
  sectors : N;
  size_gb : Q;
  empty : bool
}.

(** Body of the [for i in range(4)] loop of [parse_mbr]. *)
Definition parse_slot (mbr : bytes) (entries : list entry) (i : nat)
  : result (list entry) :=
  let start := (446 + (i * 16))%nat in
  let part := slice mbr start (start + 16) in
  bindR (struct_unpack part)
    (fun '(status, _, ptype, _, lba_start, sectors) =>
       let is_empty := (ptype =? 0) || (sectors =? 0) in
       let size_gb :=
         if is_empty then 0%Q
         else true_div (sectors * SECTOR_SIZE) (1024 ^ 3) in
       inr (entries ++ [ {| index := i;
                            ptype := ptype;
                            boot := (status =? 0x80);
                            lba := lba_start;
                            sectors := sectors;
                            size_gb := size_gb;
                            empty := is_empty |} ])%list).

(** [parse_mbr(mbr)], lines 171-199. *)
Definition parse_mbr (mbr : bytes) : result (list entry) :=
  for_in (range 4) (parse_slot mbr) [].

(** [type_name(ptype)], lines 202-212. *)
Definition type_name (ptype : N) : string :=
  match ptype with
  | 0x07 => "NTFS"
  | 0x0B => "FAT32"
  | 0x0C => "FAT32 LBA"
  | 0x0E => "FAT16 LBA"
  | 0x83 => "Linux"
  | 0x82 => "Linux Swap"
  | 0xEE => "GPT Protective"
  | _ => "Unknown (0x" ++ fmt_02X ptype ++ ")"
  end.

(** Body of the loop of lines 236-249: prints one entry and appends it
    to [real_parts] unless it is empty. *)
Definition print_entry (real_parts : list entry) (ip : nat * entry)
  : M (list entry) :=
  let '(i, p) := ip in
  print (NL ++ "Partition #" ++ str_nat i) ;;
  print ("  Type        : 0x" ++ fmt_02X (ptype p)) ;;
  print ("  Start LBA   : " ++ str_int (lba p)) ;;
  print ("  Sectors     : " ++ str_int (sectors p)) ;;
  if empty p then
    print "  Status      : Empty / Corrupt" ;;
    print "  Size (GB)   : 0.00" ;;
    ret real_parts
  else
    print ("  Status      : " ++ (if boot p then "Bootable" else "Normal")) ;;
    print ("  Type Name   : " ++ type_name (ptype p)) ;;
    print ("  Size (GB)   : " ++ fmt_2f (size_gb p)) ;;
    ret (real_parts ++ [p])%list.

(** The partition highlighted by lines 253-260: [real_parts[1]] when
    [len(real_parts) >= 2], nothing otherwise. *)
Definition secondRealPartition (real_parts : list entry) : option entry :=
  if (2 <=? List.length real_parts)%nat then nth_error real_parts 1 else None.

(** The partition summarised by lines 263-267: the [max] of [real_parts]
    by [size_gb] when [real_parts] is not empty, nothing otherwise. *)
Definition largestPartition (real_parts : list entry) : option entry :=
  match real_parts with
  | [] => None
  | p :: rest => Some (py_max size_gb float_gt p rest)
  end.

(** [analyze(path)], lines 215-267. *)
Definition analyze (fs : filesystem) (path : string) : M unit :=
  match fs path with
  | None => print "Image not found."
  | Some content =>
      let mbr := read_first content (N.to_nat SECTOR_SIZE) in
      print ("Opened image: " ++ path ++ NL) ;;
      parts <- lift (parse_mbr mbr) ;;
      print "--- MBR Partition Entries (Raw) ---" ;;
      for_inM (enumerate parts 0)
        (fun _ '(i, p) =>
           print ("Entry " ++ str_nat i ++ ": type=0x" ++ fmt_02X (ptype p)
                  ++ ", lba=" ++ str_int (lba p)
                  ++ ", sectors=" ++ str_int (sectors p)))
        tt ;;
      print ("----------------------------------" ++ NL) ;;
      print "=== Partition Table Analysis ===" ;;
      real_parts <- for_inM (enumerate parts 1) print_entry [] ;;
      print (NL ++ "=== Second Real Partition ===") ;;
      match secondRealPartition real_parts with
      | Some p =>
          print ("  MBR Index   : " ++ str_nat (index p)) ;;
          print ("  Type        : " ++ type_name (ptype p)) ;;
          print ("  Start LBA   : " ++ str_int (lba p)) ;;
          print ("  Size (GB)   : " ++ fmt_2f (size_gb p))
      | None => print "  Only one real partition found."
      end ;;
      match largestPartition real_parts with
      | Some biggest =>
          print (NL ++ "=== Summary ===") ;;
          print ("  Real partitions: " ++ str_nat (List.length real_parts)) ;;
          print ("  Largest type   : " ++ type_name (ptype biggest)
                 ++ " (" ++ fmt_2f (size_gb biggest) ++ " GB)")
      | None => ret tt
      end
  end.

End Simple.

(** ** Second analyser (lines 287-479) *)

Module Analysis.

Local Open Scope py_scope.

Definition SECTOR_SIZE : N := 512.

(** The dictionary built by [parse_mbr] for each slot it keeps. *)
Record partition : Type := {
  table_index : nat;
  bootable : bool;
  type : N;
  start_lba : N;
  num_sectors : N;
  size_bytes : N;
  size_gb : Q
}.

(** Body of the [for i in range(4)] loop of [parse_mbr]. *)
Definition parse_slot (mbr_bytes : bytes) (partitions : list partition)
  (i : nat) : M (list partition) :=
  let offset := (446 + i * 16)%nat in
  let entry := slice mbr_bytes offset (offset + 16) in
  '(status, first_chs, part_type, last_chs, start_lba, num_sectors)
    <- lift (struct_unpack entry) ;;
  print ("Entry " ++ str_nat i ++ ": status=0x" ++ fmt_02X status
         ++ ", type=0x" ++ fmt_02X part_type ++ ", "
         ++ "start_lba=" ++ str_int start_lba
         ++ ", sectors=" ++ str_int num_sectors) ;;
  if (part_type =? 0x00) || (num_sectors =? 0) then
    ret partitions
  else
    let is_bootable := (status =? 0x80) in
    let size_bytes := num_sectors * SECTOR_SIZE in
    let size_gb := true_div size_bytes (1024 ^ 3) in
    ret (partitions ++ [ {| table_index := i;
                            bootable := is_bootable;
                            type := part_type;
                            start_lba := start_lba;
                            num_sectors := num_sectors;
                            size_bytes := size_bytes;
                            size_gb := size_gb |} ])%list.

(** The test of lines 319-320, negated: the last two bytes are 55 AA. *)
Definition signature_valid (mbr_bytes : bytes) : bool :=
  let signature := slice mbr_bytes 510 512 in
  bytes_eqb signature [x55; xaa].

Definition signature_warning : string :=
  "[!] Warning: MBR signature 0x55AA not found. "
  ++ "Image may not use a standard MBR (could be GPT or a volume-only image).".

(** [parse_mbr(mbr_bytes)], lines 310-368. *)
Definition parse_mbr (mbr_bytes : bytes) : M (list partition) :=
  if negb (N.of_nat (List.length mbr_bytes) =? SECTOR_SIZE) then
    raise (ValueError "MBR must be exactly 512 bytes")
  else
    (if negb (signature_valid mbr_bytes) then print signature_warning
     else ret tt) ;;
    print (NL ++ "--- Raw MBR partition entries (debug) ---") ;;
    partitions <- for_inM (range 4) (parse_slot mbr_bytes) [] ;;
    match partitions with
    | [] =>
        print (NL ++ "[!] No non-empty partition entries found in the MBR.") ;;
        print "    This often means the image is a single volume/partition," ;;
        print "    or it uses a different partitioning scheme."
    | _ :: _ => ret tt
    end ;;
    print ("-----------------------------------------" ++ NL) ;;
    ret partitions.

(** [type_description(part_type)], lines 371-385. *)
Definition type_description (part_type : N) : string :=
  match part_type with
  | 0x07 => "NTFS/exFAT/HPFS (0x07)"
  | 0x0B => "W95 FAT32 (0x0B)"
  | 0x0C => "W95 FAT32 LBA (0x0C)"
  | 0x0E => "W95 FAT16 LBA (0x0E)"
  | 0x83 => "Linux (0x83)"
  | 0x82 => "Linux Swap (0x82)"
  | 0xEE => "GPT protective MBR (0xEE)"
  | _ => "Unknown / Other (0x" ++ fmt_02X part_type ++ ")"
  end.

(** [==] on the dictionaries of [parse_mbr]. *)
Definition partition_eqb (p q : partition) : bool :=
  Nat.eqb (table_index p) (table_index q)
  && Bool.eqb (bootable p) (bootable q)
  && (type p =? type q)
  && (start_lba p =? start_lba q)
  && (num_sectors p =? num_sectors q)
  && (size_bytes p =? size_bytes q)
  && Qeq_bool (size_gb p) (size_gb q).

(** The partition highlighted by lines 412-425: [partitions[1]] when
    [len(partitions) >= 2], nothing otherwise. *)
Definition secondRealPartition (partitions : list partition)
  : option partition :=
  if (2 <=? List.length partitions)%nat then nth_error partitions 1
  else None.

(** The partition summarised by lines 428-434: the [max] of [partitions]
    by [size_bytes]; nothing when [partitions] is empty, in which case
    the function has returned at line 397. *)
Definition largestPartition (partitions : list partition)
  : option partition :=
  match partitions with
  | [] => None
  | p :: rest => Some (py_max size_bytes int_gt p rest)
  end.

Definition yes_no (b : bool) : string := if b then "Yes" else "No".

(** Body of the loop of lines 400-409. *)
Definition print_block (_ : unit) (ip : nat * partition) : M unit :=
  let '(idx, p) := ip in
  print ("Partition #" ++ str_nat idx) ;;
  print ("  MBR Table Index  : " ++ str_nat (table_index p) ++ " (0–3)") ;;
  print ("  Bootable         : " ++ yes_no (bootable p)) ;;
  print ("  Type             : " ++ type_description (type p)) ;;
  print ("  Start LBA        : " ++ str_int (start_lba p)) ;;
  print ("  Length (sectors) : " ++ str_int (num_sectors p)) ;;
  print ("  Size (bytes)     : " ++ str_int (size_bytes p)) ;;
  print ("  Size (GB)        : " ++ fmt_2f (size_gb p)) ;;
  print "".

(** [print_partition_info(partitions)], lines 388-434.  The test of
    line 395 and the [max] of line 428 are both in [largestPartition];
    [max] has no effect, so taking it before the prints of lines 400-425
    changes nothing. *)
Definition print_partition_info (partitions : list partition) : M unit :=
  print ("=== Partition Table Analysis ===" ++ NL) ;;
  match largestPartition partitions with
  | None =>
      print "No real partitions found (all entries empty or zero-length)."
  | Some largest =>
      for_inM (enumerate partitions 1) print_block tt ;;
      match secondRealPartition partitions with
      | Some second =>
          print "=== DETAILS FOR SECOND REAL PARTITION ===" ;;
          print "  Logical #        : 2" ;;
          print ("  MBR Table Index  : " ++ str_nat (table_index second)) ;;
          print ("  Bootable         : " ++ yes_no (bootable second)) ;;
          print ("  Type             : " ++ type_description (type second)) ;;
          print ("  Start LBA        : " ++ str_int (start_lba second)) ;;
          print ("  Length (sectors) : " ++ str_int (num_sectors second)) ;;
          print ("  Size (bytes)     : " ++ str_int (size_bytes second)) ;;
          print ("  Size (GB)        : " ++ fmt_2f (size_gb second)) ;;
          print ""
      | None =>
          print ("=== No second real partition found to highlight. ===" ++ NL)
      end ;;
      k <- lift (list_index partition_eqb largest partitions) ;;
      let largest_index := (k + 1)%nat in
      print "=== Summary ===" ;;
      print ("  Total real partitions found : "
             ++ str_nat (List.length partitions)) ;;
      print ("  Largest partition           : #" ++ str_nat largest_index
             ++ " (" ++ fmt_2f (size_gb largest) ++ " GB, type "
             ++ type_description (type largest) ++ ")")
  end.

(** [analyze_image(image_path)], lines 437-451. *)
Definition analyze_image (fs : filesystem) (image_path : string) : M unit :=
  match fs image_path with
  | None => raise (FileNotFoundError ("Image not found: " ++ image_path))
  | Some content =>
      let size_bytes := N.of_nat (List.length content) in
      let size_gb := true_div size_bytes (1024 ^ 3) in
      print ("Opened image: " ++ image_path) ;;
      print ("Image size   : " ++ str_int size_bytes ++ " bytes (~"
             ++ fmt_2f size_gb ++ " GB)" ++ NL) ;;
      let mbr := read_first content (N.to_nat SECTOR_SIZE) in
      partitions <- parse_mbr mbr ;;
      print_partition_info partitions
  end.

(** The [try] statement that ends [main], lines 472-475, once
    [image_path] is known. *)
Definition main (fs : filesystem) (image_path : string) : M unit :=
  fun out =>
    match analyze_image fs image_path out with
    | (inl e, out') => print ("[!] Error: " ++ str_exn e) out'
    | (inr tt, out') => (inr tt, out')
    end.

End Analysis.

(** ** Third analyser (lines 482-570) *)

Module Compact.

Local Open Scope py_scope.

Definition SECTOR_SIZE : N := 512.

(** The dictionaries have the keys of the first analyser. *)
Definition entry : Type := Simple.entry.

(** Body of the [for i in range(4)] loop of [parse_mbr]. *)
Definition parse_slot (mbr : bytes) (entries : list entry) (i : nat)
  : result (list entry) :=
  let start := (446 + i * 16)%nat in
  bindR (struct_unpack (slice mbr start (start + 16)))
    (fun '(status, _, ptype, _, lba, sectors) =>
       let empty := (ptype =? 0) || (sectors =? 0) in
       let size_gb :=
         if empty then 0%Q else true_div (sectors * SECTOR_SIZE) (1024 ^ 3) in
       inr (entries ++ [ {| Simple.index := i;
                            Simple.ptype := ptype;
                            Simple.boot := (status =? 0x80);
                            Simple.lba := lba;
                            Simple.sectors := sectors;
                            Simple.size_gb := size_gb;
                            Simple.empty := empty |} ])%list).

(** [parse_mbr(mbr)], lines 489-505. *)
Definition parse_mbr (mbr : bytes) : result (list entry) :=
  for_in (range 4) (parse_slot mbr) [].

(** [type_name(pt)], lines 507-517. *)
Definition type_name (pt : N) : string :=
  match pt with
  | 0x07 => "NTFS"
  | 0x0B => "FAT32"
  | 0x0C => "FAT32 LBA"
  | 0x0E => "FAT16 LBA"
  | 0x83 => "Linux"
  | 0x82 => "Linux Swap"
  | 0xEE => "GPT Protective"
  | _ => "Unknown (0x" ++ fmt_02X pt ++ ")"
  end.

(** Body of the loop of lines 535-547. *)
Definition print_entry (real_parts : list entry) (ip : nat * entry)
  : M (list entry) :=
  let '(i, p) := ip in
  print (NL ++ "Partition #" ++ str_nat i) ;;
  print ("  Type        : 0x" ++ fmt_02X (Simple.ptype p)) ;;
  print ("  Start LBA   : " ++ str_int (Simple.lba p)) ;;
  print ("  Sectors     : " ++ str_int (Simple.sectors p)) ;;
  if Simple.empty p then
    print "  Status      : Empty / Corrupt" ;;
    print "  Size (GB)   : 0.00" ;;
    ret real_parts
  else
    print ("  Status      : "
           ++ (if Simple.boot p then "Bootable" else "Normal")) ;;
    print ("  Type Name   : " ++ type_name (Simple.ptype p)) ;;
    print ("  Size (GB)   : " ++ fmt_2f (Simple.size_gb p)) ;;
    ret (real_parts ++ [p])%list.

(** The partition highlighted by lines 550-557. *)
Definition secondRealPartition (real_parts : list entry) : option entry :=
  if (2 <=? List.length real_parts)%nat then nth_error real_parts 1 else None.

(** The partition summarised by lines 559-563. *)
Definition largestPartition (real_parts : list entry) : option entry :=
  match real_parts with
  | [] => None
  | p :: rest => Some (py_max Simple.size_gb float_gt p rest)
  end.

(** [analyze(path)], lines 519-563. *)
Definition analyze (fs : filesystem) (path : string) : M unit :=
  match fs path with
  | None => print "Image not found."
  | Some content =>
      let mbr := read_first content (N.to_nat SECTOR_SIZE) in
      print ("Opened image: " ++ path ++ NL) ;;
      parts <- lift (parse_mbr mbr) ;;
      print "--- MBR Partition Entries (Raw) ---" ;;
      for_inM (enumerate parts 0)
        (fun _ '(i, p) =>
           print ("Entry " ++ str_nat i ++ ": type=0x"
                  ++ fmt_02X (Simple.ptype p)
                  ++ ", lba=" ++ str_int (Simple.lba p)
                  ++ ", sectors=" ++ str_int (Simple.sectors p)))
        tt ;;
      print ("----------------------------------" ++ NL) ;;
      print "=== Partition Table Analysis ===" ;;
      real_parts <- for_inM (enumerate parts 1) print_entry [] ;;
      print (NL ++ "=== Second Real Partition ===") ;;
      match secondRealPartition real_parts with
      | Some p =>
          print ("  MBR Index   : " ++ str_nat (Simple.index p)) ;;
          print ("  Type        : " ++ type_name (Simple.ptype p)) ;;
          print ("  Start LBA   : " ++ str_int (Simple.lba p)) ;;
          print ("  Size (GB)   : " ++ fmt_2f (Simple.size_gb p))
      | None => print "  Only one real partition found."
      end ;;
      match largestPartition real_parts with
      | Some biggest =>
          print (NL ++ "=== Summary ===") ;;
          print ("  Real partitions: " ++ str_nat (List.length real_parts)) ;;
          print ("  Largest type   : " ++ type_name (Simple.ptype biggest)
                 ++ " (" ++ fmt_2f (Simple.size_gb biggest) ++ " GB)")
      | None => ret tt
      end
  end.

End Compact.

(** ** The CSV report script (lines 1-159) *)

Module ImportCsv.

Local Open Scope py_scope.

(** A row of [csv.DictReader], as the script reads it: [row.get(key)] is
    the text of a column, or [None]. *)
Definition row : Type := string -> option string.

(** The truth value of a [str] or [None]. *)
Definition truthy (v : option string) : bool :=
  match v with
  | Some s => negb (String.eqb s "")
  | None => false
  end.

(** [a or b]. *)
Definition py_or (a b : option string) : option string :=
  if truthy a then a else b.

(** [a or d] for a default [d] that is a string. *)
Definition or_str (a : option string) (d : string) : string :=
  match py_or a (Some d) with
  | Some s => s
  | None => d
  end.

(** [f"{v}"]. *)
Definition fmt (v : option string) : string :=
  match v with
  | Some s => s
  | None => "None"
  end.

(** [needle in hay] on strings. *)
Definition str_in (needle hay : string) : bool :=
  match String.index 0 needle hay with
  | Some _ => true
  | None => false
  end.

Section Environment.

(** What the script asks its environment: [os.path.exists],
    [glob.glob], [os.path.basename], the rows [csv.DictReader] reads from
    a file, [str.lower] and [str.strip]. *)
Variable os_path_exists : string -> bool.
Variable glob_glob : string -> list string.
Variable os_path_basename : string -> string.
Variable csv_rows : string -> list row.
Variable str_lower : string -> string.
Variable str_strip : string -> string.

(** [check_hives()], lines 8-15. *)
Definition check_hives : M unit :=
  print "=== Registry hive check ===" ;;
  for_inM ["SAM"; "SYSTEM"; "SOFTWARE"]
    (fun _ name =>
       if os_path_exists name then print ("[+] Found hive file: " ++ name)
       else print ("[!] MISSING hive file: " ++ name))
    tt ;;
  print "".

(** [find_csv(pattern, label)], lines 19-26. *)
Definition find_csv (pattern label : string) : M (option string) :=
  match glob_glob pattern with
  | [] =>
      print ("[!] " ++ label ++ ": CSV file not found for pattern: "
             ++ pattern) ;;
      ret None
  | path :: _ =>
      print ("[+] " ++ label ++ ": using " ++ os_path_basename path) ;;
      ret (Some path)
  end.

(** [read_csv(path)], lines 30-32, on a file that opens. *)
Definition read_csv (path : string) : list row := csv_rows path.

(** Body of the loop of lines 49-55. *)
Definition program_body (count : nat) (r : row) : M (nat * bool) :=
  let name := py_or (py_or (r "Program Name") (r "Name")) (r "DisplayName") in
  count <- (if truthy name then
              print ("- " ++ fmt name) ;; ret (count + 1)%nat
            else ret count) ;;
  ret (count, Nat.eqb count 10).

(** [show_installed_programs()], lines 37-56. *)
Definition show_installed_programs : M unit :=
  path <- find_csv "*Installed*Program*.csv" "Installed programs" ;;
  if negb (truthy path) then print ""
  else
    let rows := read_csv (fmt path) in
    print (NL ++ "=== Installed Programs ===") ;;
    print ("Total rows: " ++ str_nat (List.length rows)) ;;
    for_breakM rows program_body 0%nat ;;
    print "".

(** Body of the loop of lines 71-78. *)
Definition user_body (_ : unit) (r : row) : M unit :=
  let user := py_or (py_or (r "Login Name") (r "User Name")) (r "Name") in
  let sid := py_or (r "SID") (r "User SID") in
  if truthy user then
    if truthy sid then
      print ("- " ++ fmt user ++ " (SID: " ++ fmt sid ++ ")")
    else print ("- " ++ fmt user)
  else ret tt.

(** [show_user_accounts()], lines 61-79. *)
Definition show_user_accounts : M unit :=
  path <- find_csv "Users*.csv" "User accounts" ;;
  if negb (truthy path) then print ""
  else
    let rows := read_csv (fmt path) in
    print "=== User Accounts ===" ;;
    print ("Total rows: " ++ str_nat (List.length rows)) ;;
    for_inM rows user_body tt ;;
    print "".

(** Body of the loop of lines 101-118. *)
Definition usb_body (count : nat) (r : row) : M (nat * bool) :=
  let date_time := py_or (r "Date/Time") (r "Timestamp") in
  let make := or_str (r "Device Make") "" in
  let model := or_str (r "Device Model") "" in
  let dev_id := or_str (r "Device ID") "" in
  let device_desc :=
    or_str (Some (str_strip (make ++ " " ++ model))) "(Unknown device)" in
  (if truthy date_time && truthy (Some dev_id) then
     print ("- " ++ device_desc ++ " | ID: " ++ dev_id
            ++ " | First seen: " ++ fmt date_time)
   else if truthy date_time then
     print ("- " ++ device_desc ++ " | First seen: " ++ fmt date_time)
   else print ("- " ++ device_desc)) ;;
  let count := (count + 1)%nat in
  ret (count, Nat.eqb count 10).

(** [show_usb_devices()], lines 84-119. *)
Definition show_usb_devices : M unit :=
  let usb_csvs :=
    filter (fun f => str_in "usb" (str_lower f)) (glob_glob "*.csv") in
  match usb_csvs with
  | [] =>
      print ("[!] USB devices: no CSV file with 'USB' in the name was found."
             ++ NL)
  | path :: _ =>
      print ("[+] USB devices: using " ++ os_path_basename path) ;;
      let rows := read_csv path in
      print "=== USB Device History ===" ;;
      print ("Total rows: " ++ str_nat (List.length rows)) ;;
      for_breakM rows usb_body 0%nat ;;
      print ""
  end.

(** Body of the loop of lines 136-146. *)
Definition run_body (count : nat) (r : row) : M (nat * bool) :=
  let cmd :=
    py_or (py_or (r "Command") (r "Command Line")) (r "Program Name") in
  let time := py_or (r "Date/Time") (r "Timestamp") in
  count <- (if truthy cmd then
              (if truthy time then
                 print ("- [" ++ fmt time ++ "] " ++ fmt cmd)
               else print ("- " ++ fmt cmd)) ;;
              ret (count + 1)%nat
            else ret count) ;;
  ret (count, Nat.eqb count 15).

(** [show_run_history()], lines 125-147. *)
Definition show_run_history : M unit :=
  path <- find_csv "*Run*Program*History*.csv" "Run / command history" ;;
  if negb (truthy path) then print ""
  else
    let rows := read_csv (fmt path) in
    print "=== Run Program / Command History ===" ;;
    print ("Total rows: " ++ str_nat (List.length rows)) ;;
    for_breakM rows run_body 0%nat ;;
    print "".

(** The script itself, lines 152-159. *)
Definition main : M unit :=
  print ("Simple Forensic Script for Task 2" ++ NL) ;;
  check_hives ;;
  show_installed_programs ;;
  show_user_accounts ;;
  show_usb_devices ;;
  show_run_history.

End Environment.

End ImportCsv.

(** ** The partition table as the specification lays it out

    The definitions of this part follow the field layout of the
    specification, not the code: slot [i] of the table starts at byte
    [446 + 16*i] of the sector.  They are what the decoders above are
    compared with. *)

Definition spec_byte_at (mbr : bytes) (k : nat) : N := to_N (nth k mbr x00).

Definition spec_le32_at (mbr : bytes) (k : nat) : N :=
  spec_byte_at mbr k + 2 ^ 8 * spec_byte_at mbr (k + 1)
  + 2 ^ 16 * spec_byte_at mbr (k + 2) + 2 ^ 24 * spec_byte_at mbr (k + 3).

Definition spec_status (mbr : bytes) (i : nat) : N :=
  spec_byte_at mbr (446 + 16 * i).

Definition spec_type_code (mbr : bytes) (i : nat) : N :=
  spec_byte_at mbr (446 + 16 * i + 4).

Definition spec_start_lba (mbr : bytes) (i : nat) : N :=
  spec_le32_at mbr (446 + 16 * i + 8).

Definition spec_sector_count (mbr : bytes) (i : nat) : N :=
  spec_le32_at mbr (446 + 16 * i + 12).

Definition spec_is_empty (mbr : bytes) (i : nat) : bool :=
  (spec_type_code mbr i =? 0) || (spec_sector_count mbr i =? 0).

Definition spec_size_bytes (mbr : bytes) (i : nat) : N :=
  if spec_is_empty mbr i then 0 else spec_sector_count mbr i * 512.

(** [size_bytes / 2^30]. *)
Definition spec_size_gib (mbr : bytes) (i : nat) : Q :=
  if spec_is_empty mbr i then 0%Q
  else Qmake (Z.of_N (spec_size_bytes mbr i)) (2 ^ 30).

(** Slot [i] as a dictionary of the first and third analysers. *)
Definition spec_entry (mbr : bytes) (i : nat) : Simple.entry :=
  {| Simple.index := i;
     Simple.ptype := spec_type_code mbr i;
     Simple.boot := (spec_status mbr i =? 0x80);
     Simple.lba := spec_start_lba mbr i;
     Simple.sectors := spec_sector_count mbr i;
     Simple.size_gb := spec_size_gib mbr i;
     Simple.empty := spec_is_empty mbr i |}.

(** Slot [i] as a dictionary of the second analyser. *)
Definition spec_partition (mbr : bytes) (i : nat) : Analysis.partition :=
  {| Analysis.table_index := i;
     Analysis.bootable := (spec_status mbr i =? 0x80);
     Analysis.type := spec_type_code mbr i;
     Analysis.start_lba := spec_start_lba mbr i;
     Analysis.num_sectors := spec_sector_count mbr i;
     Analysis.size_bytes := spec_size_bytes mbr i;
     Analysis.size_gb := spec_size_gib mbr i |}.

(** The slots that hold a real partition, in table order. *)
Definition spec_real_slots (mbr : bytes) : list nat :=
  filter (fun i => negb (spec_is_empty mbr i)) (range 4).

(** The line [parse_mbr] of the second analyser prints for slot [i]. *)
Definition spec_debug_line (mbr : bytes) (i : nat) : string :=
  "Entry " ++ str_nat i ++ ": status=0x" ++ fmt_02X (spec_status mbr i)
  ++ ", type=0x" ++ fmt_02X (spec_type_code mbr i)
  ++ ", start_lba=" ++ str_int (spec_start_lba mbr i)
  ++ ", sectors=" ++ str_int (spec_sector_count mbr i).

(** Everything [parse_mbr] of the second analyser prints for a sector. *)
Definition spec_parse_output (mbr : bytes) : list string :=
  ((if Analysis.signature_valid mbr then []
    else [Analysis.signature_warning])
   ++ [(NL ++ "--- Raw MBR partition entries (debug) ---")%string]
   ++ map (spec_debug_line mbr) (range 4)
   ++ match spec_real_slots mbr with
      | [] =>
          [(NL ++ "[!] No non-empty partition entries found in the MBR.")
             %string;
           "    This often means the image is a single volume/partition,";
           "    or it uses a different partitioning scheme."]
      | _ :: _ => []
      end
   ++ [("-----------------------------------------" ++ NL)%string])%list.


(** [p] is the first element of [l] of greatest weight [w]: the stable
    maximum of the specification. *)
Definition first_greatest {A} (w : A -> N) (l : list A) (p : A) : Prop :=
  exists k,
    nth_error l k = Some p
    /\ (forall q, In q l -> w q <= w p)
    /\ (forall j q, (j < k)%nat -> nth_error l j = Some q -> w q < w p).

(** The entries of the first analyser that are not empty, in order. *)
Definition real_entries (es : list Simple.entry) : list Simple.entry :=
  filter (fun e => negb (Simple.empty e)) es.

(** The value of an upper-case hexadecimal numeral. *)
Fixpoint digit_position (c : ascii) (digits : string) (k : N) : option N :=
  match digits with
  | EmptyString => None
  | String d digits' =>
      if Ascii.eqb c d then Some k else digit_position c digits' (k + 1)
  end.

Definition hex_digit_value (c : ascii) : option N :=
  digit_position c HEX_DIGITS 0.

Fixpoint hex_value_from (acc : N) (s : string) : option N :=
  match s with
  | EmptyString => Some acc
  | String c s' =>
      match hex_digit_value c with
      | Some d => hex_value_from (16 * acc + d) s'
      | None => None
      end
  end.

Definition hex_value (s : string) : option N := hex_value_from 0 s.

(** The type codes of the lookup tables. *)
Definition known_codes : list N := [0x07; 0x0B; 0x0C; 0x0E; 0x82; 0x83; 0xEE].

(** The lookup table in the words of the specification: the label it
    gives for each code it lists. *)
Definition spec_type_label (code : N) : option string :=
  match code with
  | 0x07 => Some "NTFS/exFAT/HPFS"
  | 0x0B => Some "FAT32"
  | 0x0C => Some "FAT32 LBA"
  | 0x0E => Some "FAT16 LBA"
  | 0x82 => Some "Linux Swap"
  | 0x83 => Some "Linux"
  | 0xEE => Some "GPT Protective MBR"
  | _ => None
  end.

(** A label names a type when it contains the name, letter case apart. *)
Definition lower_ascii (c : ascii) : ascii :=
  let n := nat_of_ascii c in
  if ((65 <=? n) && (n <=? 90))%nat then ascii_of_nat (n + 32) else c.

Fixpoint lower_string (s : string) : string :=
  match s with
  | EmptyString => EmptyString
  | String c s' => String (lower_ascii c) (lower_string s')
  end.

Definition mentions (label name : string) : bool :=
  match String.index 0 (lower_string name) (lower_string label) with
  | Some _ => true
  | None => false
  end.

(** What the fallback branch of the lookup tables must satisfy for a
    type code: the label is the fixed text around the two upper-case
    hexadecimal digits of the code. *)
Definition unknown_label_check (code : N) : bool :=
  existsb (N.eqb code) known_codes
  || (String.eqb (Analysis.type_description code)
        ("Unknown / Other (0x" ++ fmt_02X code ++ ")")
      && String.eqb (Simple.type_name code)
           ("Unknown (0x" ++ fmt_02X code ++ ")")
      && Nat.eqb (String.length (fmt_02X code)) 2
      && match hex_value (fmt_02X code) with
         | Some v => v =? code
         | None => false
         end).

(** ** Sample sectors *)

(** A 16-byte table entry with zeroed CHS fields. *)
Definition raw_entry (status type l0 l1 l2 l3 n0 n1 n2 n3 : byte) : bytes :=
  [status; x00; x00; x00; type; x00; x00; x00; l0; l1; l2; l3; n0; n1; n2; n3].

Definition sector (boot : byte) (e0 e1 e2 e3 signature : bytes) : bytes :=
  (repeat boot 446 ++ e0 ++ e1 ++ e2 ++ e3 ++ signature)%list.

Definition empty_slot : bytes := repeat x00 16.

(** Bootable Linux partition: start LBA 2048, 204800 sectors. *)
Definition linux_slot : bytes :=
  raw_entry x80 x83 x00 x08 x00 x00 x00 x20 x03 x00.

(** NTFS partition: start LBA 206848, 204800 sectors. *)
Definition ntfs_slot : bytes :=
  raw_entry x00 x07 x00 x28 x03 x00 x00 x20 x03 x00.

(** Swap partition: start LBA 411648, 4096 sectors. *)
Definition swap_slot : bytes :=
  raw_entry x00 x82 x00 x48 x06 x00 x00 x10 x00 x00.

Definition sample_linux : bytes :=
  sector x00 linux_slot empty_slot empty_slot empty_slot [x55; xaa].

Definition sample_two_equal : bytes :=
  sector x00 linux_slot empty_slot ntfs_slot empty_slot [x55; xaa].

Definition sample_slot2_only : bytes :=
  sector x00 empty_slot empty_slot ntfs_slot empty_slot [x55; xaa].

Definition sample_three : bytes :=
  sector x00 swap_slot linux_slot empty_slot ntfs_slot [x55; xaa].

(** The table of [sample_two_equal] behind other boot code, unsigned. *)
Definition sample_unsigned : bytes :=
  sector x90 linux_slot empty_slot ntfs_slot empty_slot [x00; x00].

Definition sample_blank : bytes := repeat x00 512.

(** An image one byte short of a sector. *)
Definition sample_short : bytes := repeat x00 511.

Definition sample_fs (content : bytes) : filesystem :=
  fun path => if String.eqb path "image.dd" then Some content else None.

(** ** What the reports list *)

(** The first of the values that is a text and is not empty. *)
Fixpoint first_nonempty (vs : list (option string)) : option string :=
  match vs with
  | [] => None
  | Some s :: vs' => if String.eqb s "" then first_nonempty vs' else Some s
  | None :: vs' => first_nonempty vs'
  end.

(** The first non-empty column of a row among [keys], in that order. *)
Definition column (keys : list string) (r : ImportCsv.row) : option string :=
  first_nonempty (map r keys).

(** The lines of the rows that have one, in the order of the rows. *)
Definition lines_of {A} (line : A -> option string) (rows : list A)
  : list string :=
  flat_map (fun r => match line r with Some l => [l] | None => [] end) rows.

Definition program_line (r : ImportCsv.row) : option string :=
  match column ["Program Name"; "Name"; "DisplayName"] r with
  | Some name => Some ("- " ++ name)
  | None => None
  end.

Definition user_line (r : ImportCsv.row) : option string :=
  match column ["Login Name"; "User Name"; "Name"] r with
  | Some user =>
      match column ["SID"; "User SID"] r with
      | Some sid => Some ("- " ++ user ++ " (SID: " ++ sid ++ ")")
      | None => Some ("- " ++ user)
      end
  | None => None
  end.

Definition run_line (r : ImportCsv.row) : option string :=
  match column ["Command"; "Command Line"; "Program Name"] r with
  | Some cmd =>
      match column ["Date/Time"; "Timestamp"] r with
      | Some time => Some ("- [" ++ time ++ "] " ++ cmd)
      | None => Some ("- " ++ cmd)
      end
  | None => None
  end.

(** A missing or empty column counts as the empty text. *)
Definition column_text (key : string) (r : ImportCsv.row) : string :=
  match column [key] r with
  | Some s => s
  | None => ""
  end.



(** ** The two dictionary shapes *)

(** An entry of the first analyser with the keys of the second. *)
Definition partition_of_entry (e : Simple.entry) : Analysis.partition :=
  {| Analysis.table_index := Simple.index e;
     Analysis.bootable := Simple.boot e;
     Analysis.type := Simple.ptype e;
     Analysis.start_lba := Simple.lba e;
     Analysis.num_sectors := Simple.sectors e;
     Analysis.size_bytes := Simple.sectors e * 512;
     Analysis.size_gb := Simple.size_gb e |}.

(** The offsets, within a 16-byte slot, of the bytes that are not CHS
    addresses: status, type, start LBA and sector count. *)
Definition field_offsets : list nat := [0; 4; 8; 9; 10; 11; 12; 13; 14; 15]%nat.

(** Those offsets in the four slots of a sector, and the bytes there. *)
Definition field_positions : list nat :=
  flat_map (fun i => map (fun d => 446 + 16 * i + d)%nat field_offsets)
    (range 4).

Definition field_bytes (mbr : bytes) : list byte :=
  map (fun k => nth k mbr x00) field_positions.

(** [s] ends with [suffix]. *)
Definition ends_with (s suffix : string) : bool :=
  let n := String.length s in
  let k := String.length suffix in
  (k <=? n)%nat && String.eqb (String.substring (n - k) k s) suffix.

(** More sample buffers: one byte short of what the first analyser
    needs, and a sector whose Linux partition has CHS addresses. *)
Definition sample_too_short : bytes := repeat x00 509.

Definition linux_slot_chs : bytes :=
  [x80; x20; x21; x00; x83; xfe; xff; xff;
   x00; x08; x00; x00; x00; x20; x03; x00].

Definition sample_linux_chs : bytes :=
  sector x00 linux_slot_chs empty_slot empty_slot empty_slot [x55; xaa].

(** ** Sample rows *)

(** A row given by its columns. *)
Definition sample_row (columns : list (string * string)) : ImportCsv.row :=
  fun key =>
    match find (fun kv => String.eqb (fst kv) key) columns with
    | Some kv => Some (snd kv)
    | None => None
    end.

(** Three rows of a program list: the second has no name at all, the
    third only a [DisplayName]. *)
Definition sample_programs : list ImportCsv.row :=
  [sample_row [("Program Name", "Firefox"); ("Name", "ignored")];
   sample_row [("Program Name", ""); ("Version", "1.0")];
   sample_row [("Program Name", ""); ("DisplayName", "VLC")]].

(** Twelve rows, four times the three above. *)
Definition sample_many_programs : list ImportCsv.row :=
  (sample_programs ++ sample_programs ++ sample_programs ++ sample_programs)
    %list.

Definition sample_users : list ImportCsv.row :=
  [sample_row [("Login Name", "alice"); ("SID", "S-1-5-21-1001")];
   sample_row [("User Name", "bob"); ("SID", "")];
   sample_row [("SID", "S-1-5-18")]].



Definition sample_runs : list ImportCsv.row :=
  [sample_row [("Command", "cmd.exe"); ("Date/Time", "2024-01-01")];
   sample_row [("Command Line", "notepad")];
   sample_row [("Date/Time", "2024-01-03")]].

(** A directory that holds one CSV file per report. *)
Definition sample_glob (pattern : string) : list string :=
  if String.eqb pattern "*.csv" then ["Users.csv"; "USB Devices.csv"]
  else ["reports/" ++ pattern].

(** ** Facts about the runtime fragment *)

Section Runtime.

Lemma slice_nth (b : bytes) (lo n : nat) :
  (lo + n <= List.length b)%nat ->
  slice b lo (lo + n) = map (fun j => nth (lo + j) b x00) (seq 0 n).
Proof.
  intros Hlen. unfold slice.
  replace (lo + n - lo)%nat with n by lia.
  apply nth_ext with (d := x00) (d' := x00).
  - rewrite length_map, length_seq, length_firstn, length_skipn. lia.
  - intros k Hk.
    rewrite length_firstn, length_skipn in Hk.
    rewrite nth_firstn.
    destruct (Nat.ltb_spec k n) as [Hkn | Hkn]; [| lia].
    rewrite nth_skipn.
    rewrite (nth_indep (map _ _) x00 (nth (lo + 0) b x00))
      by (rewrite length_map, length_seq; lia).
    rewrite (map_nth (fun j => nth (lo + j) b x00)), seq_nth by lia.
    reflexivity.
Qed.

Lemma struct_unpack_16 (f : nat -> byte) :
  struct_unpack (map f (seq 0 16)) =
  inr (to_N (f 0%nat), [f 1%nat; f 2%nat; f 3%nat],
       to_N (f 4%nat), [f 5%nat; f 6%nat; f 7%nat],
       le32 (f 8%nat) (f 9%nat) (f 10%nat) (f 11%nat),
       le32 (f 12%nat) (f 13%nat) (f 14%nat) (f 15%nat)).
Proof. reflexivity. Qed.

(** A slice of 16 bytes inside the buffer unpacks to the fields the
    specification reads at its offsets. *)
Lemma unpack_slot (mbr : bytes) (i : nat) :
  (446 + 16 * i + 16 <= List.length mbr)%nat ->
  struct_unpack (slice mbr (446 + i * 16) (446 + i * 16 + 16)) =
  inr (spec_status mbr i,
       [nth (446 + 16 * i + 1) mbr x00; nth (446 + 16 * i + 2) mbr x00;
        nth (446 + 16 * i + 3) mbr x00],
       spec_type_code mbr i,
       [nth (446 + 16 * i + 5) mbr x00; nth (446 + 16 * i + 6) mbr x00;
        nth (446 + 16 * i + 7) mbr x00],
       spec_start_lba mbr i, spec_sector_count mbr i).
Proof.
  intros Hlen.
  rewrite slice_nth by lia.
  rewrite struct_unpack_16.
  unfold spec_status, spec_type_code, spec_start_lba, spec_sector_count,
    spec_le32_at, spec_byte_at, le32.
  replace (446 + i * 16)%nat with (446 + 16 * i)%nat by lia.
  replace (446 + 16 * i + 0)%nat with (446 + 16 * i)%nat by lia.
  replace (446 + 16 * i + 8 + 1)%nat with (446 + 16 * i + 9)%nat by lia.
  replace (446 + 16 * i + 8 + 2)%nat with (446 + 16 * i + 10)%nat by lia.
  replace (446 + 16 * i + 8 + 3)%nat with (446 + 16 * i + 11)%nat by lia.
  replace (446 + 16 * i + 12 + 1)%nat with (446 + 16 * i + 13)%nat by lia.
  replace (446 + 16 * i + 12 + 2)%nat with (446 + 16 * i + 14)%nat by lia.
  replace (446 + 16 * i + 12 + 3)%nat with (446 + 16 * i + 15)%nat by lia.
  reflexivity.
Qed.

Lemma bind_run {A B} (c : M A) (k : A -> M B) (out out' : stdout) (a : A) :
  c out = (inr a, out') -> bind c k out = k a out'.
Proof. unfold bind. now intros ->. Qed.

Lemma bind_raise {A B} (c : M A) (k : A -> M B) (out out' : stdout) (e : exn) :
  c out = (inl e, out') -> bind c k out = (inl e, out').
Proof. unfold bind. now intros ->. Qed.

Lemma bind_print {B} (s : string) (k : unit -> M B) (out : stdout) :
  bind (print s) k out = k tt (out ++ [s])%list.
Proof. reflexivity. Qed.

End Runtime.

(** ** The decoders against the layout *)

Section Decoders.

Variable mbr : bytes.

Lemma Simple_parse_slot (entries : list Simple.entry) (i : nat) :
  (446 + 16 * i + 16 <= List.length mbr)%nat ->
  Simple.parse_slot mbr entries i = inr (entries ++ [spec_entry mbr i])%list.
Proof.
  intros Hlen. unfold Simple.parse_slot.
  rewrite unpack_slot by exact Hlen.
  cbn [bindR]. unfold spec_entry, spec_size_gib, spec_size_bytes.
  fold (spec_is_empty mbr i).
  destruct (spec_is_empty mbr i); reflexivity.
Qed.

Lemma Compact_parse_slot (entries : list Simple.entry) (i : nat) :
  (446 + 16 * i + 16 <= List.length mbr)%nat ->
  Compact.parse_slot mbr entries i = inr (entries ++ [spec_entry mbr i])%list.
Proof.
  intros Hlen. unfold Compact.parse_slot.
  rewrite unpack_slot by exact Hlen.
  cbn [bindR]. unfold spec_entry, spec_size_gib, spec_size_bytes.
  fold (spec_is_empty mbr i).
  destruct (spec_is_empty mbr i); reflexivity.
Qed.

Lemma Simple_loop (slots : list nat) (entries : list Simple.entry) :
  (forall i, In i slots -> 446 + 16 * i + 16 <= List.length mbr)%nat ->
  for_in slots (Simple.parse_slot mbr) entries
  = inr (entries ++ map (spec_entry mbr) slots)%list.
Proof.
  revert entries.
  induction slots as [| i slots IH]; intros entries Hin; cbn [for_in map].
  - now rewrite app_nil_r.
  - rewrite Simple_parse_slot by (apply Hin; now left).
    cbn [bindR]. rewrite IH by (intros j Hj; apply Hin; now right).
    now rewrite <- app_assoc.
Qed.

Lemma Compact_loop (slots : list nat) (entries : list Simple.entry) :
  (forall i, In i slots -> 446 + 16 * i + 16 <= List.length mbr)%nat ->
  for_in slots (Compact.parse_slot mbr) entries
  = inr (entries ++ map (spec_entry mbr) slots)%list.
Proof.
  revert entries.
  induction slots as [| i slots IH]; intros entries Hin; cbn [for_in map].
  - now rewrite app_nil_r.
  - rewrite Compact_parse_slot by (apply Hin; now left).
    cbn [bindR]. rewrite IH by (intros j Hj; apply Hin; now right).
    now rewrite <- app_assoc.
Qed.

Lemma range4_in_bounds (i : nat) :
  (510 <= List.length mbr)%nat -> In i (range 4) ->
  (446 + 16 * i + 16 <= List.length mbr)%nat.
Proof.
  intros Hlen Hin. apply in_seq in Hin. lia.
Qed.

(** On a buffer of at least 510 bytes the first decoder returns the four
    slots of the layout. *)
Lemma Simple_parse_mbr_layout :
  (510 <= List.length mbr)%nat ->
  Simple.parse_mbr mbr = inr (map (spec_entry mbr) (range 4)).
Proof.
  intros Hlen. unfold Simple.parse_mbr.
  now rewrite Simple_loop by (intros i; now apply range4_in_bounds).
Qed.

Lemma Compact_parse_mbr_layout :
  (510 <= List.length mbr)%nat ->
  Compact.parse_mbr mbr = inr (map (spec_entry mbr) (range 4)).
Proof.
  intros Hlen. unfold Compact.parse_mbr.
  now rewrite Compact_loop by (intros i; now apply range4_in_bounds).
Qed.

Lemma Analysis_parse_slot (partitions : list Analysis.partition) (i : nat)
  (out : stdout) :
  (446 + 16 * i + 16 <= List.length mbr)%nat ->
  Analysis.parse_slot mbr partitions i out =
  (inr (if spec_is_empty mbr i then partitions
        else partitions ++ [spec_partition mbr i])%list,
   (out ++ [spec_debug_line mbr i])%list).
Proof.
  intros Hlen. unfold Analysis.parse_slot.
  unfold bind at 1. unfold lift.
  rewrite unpack_slot by exact Hlen.
  unfold bind, print. fold (spec_debug_line mbr i).
  fold (spec_is_empty mbr i).
  unfold spec_partition, spec_size_gib, spec_size_bytes.
  destruct (spec_is_empty mbr i); reflexivity.
Qed.

Lemma Analysis_loop (slots : list nat) (partitions : list Analysis.partition)
  (out : stdout) :
  (forall i, In i slots -> 446 + 16 * i + 16 <= List.length mbr)%nat ->
  for_inM slots (Analysis.parse_slot mbr) partitions out =
  (inr (partitions
        ++ map (spec_partition mbr)
             (filter (fun i => negb (spec_is_empty mbr i)) slots))%list,
   (out ++ map (spec_debug_line mbr) slots)%list).
Proof.
  revert partitions out.
  induction slots as [| i slots IH]; intros partitions out Hin;
    cbn [for_inM map filter].
  - unfold ret. now rewrite !app_nil_r.
  - unfold bind. rewrite Analysis_parse_slot by (apply Hin; now left).
    rewrite IH by (intros j Hj; apply Hin; now right).
    destruct (spec_is_empty mbr i); cbn [negb map];
      now rewrite <- !app_assoc.
Qed.


(** On a sector of 512 bytes the second decoder returns the real slots
    of the layout, in table order, and prints [spec_parse_output]. *)
Lemma Analysis_parse_mbr_layout (out : stdout) :
  List.length mbr = 512%nat ->
  Analysis.parse_mbr mbr out =
  (inr (map (spec_partition mbr) (spec_real_slots mbr)),
   (out ++ spec_parse_output mbr)%list).
Proof.
  intros Hlen. unfold Analysis.parse_mbr, spec_parse_output.
  assert (Hn : negb (N.of_nat (List.length mbr) =? Analysis.SECTOR_SIZE)
               = false) by now rewrite Hlen.
  rewrite Hn. clear Hn.
  assert (Hsig :
    (if negb (Analysis.signature_valid mbr)
     then print Analysis.signature_warning else ret tt) out =
    (inr tt,
     (out ++ (if Analysis.signature_valid mbr then []
              else [Analysis.signature_warning]))%list)).
  { destruct (Analysis.signature_valid mbr); cbn [negb]; unfold print, ret;
      [ now rewrite app_nil_r | reflexivity ]. }
  rewrite (bind_run _ _ _ _ _ Hsig). clear Hsig.
  rewrite bind_print.
  rewrite (bind_run _ _ _ _ _
             (Analysis_loop (range 4) [] _
                (fun i Hi => range4_in_bounds i ltac:(lia) Hi))).
  cbn [app]. fold (spec_real_slots mbr).
  destruct (spec_real_slots mbr) as [| s0 rest]; cbn [map];
    rewrite ?bind_print; unfold bind, print, ret;
    rewrite <- !app_assoc; reflexivity.
Qed.

End Decoders.

(** ** Sectors that agree on the partition table *)

Section TableBytes.

Variables m1 m2 : bytes.
Hypothesis len1 : (510 <= List.length m1)%nat.
Hypothesis len2 : (510 <= List.length m2)%nat.
Hypothesis same_table : slice m1 446 510 = slice m2 446 510.

Lemma table_byte_agree (k : nat) :
  (446 <= k < 510)%nat -> spec_byte_at m1 k = spec_byte_at m2 k.
Proof.
  intros Hk. unfold spec_byte_at. f_equal.
  assert (Hnth : forall m : bytes,
             nth k m x00 = nth (k - 446) (slice m 446 510) x00).
  { intros m. unfold slice. rewrite nth_firstn, nth_skipn.
    destruct (Nat.ltb_spec (k - 446) (510 - 446)) as [_ | Hge]; [| lia].
    f_equal. lia. }
  now rewrite (Hnth m1), (Hnth m2), same_table.
Qed.

Lemma table_le32_agree (k : nat) :
  (446 <= k)%nat -> (k + 3 < 510)%nat -> spec_le32_at m1 k = spec_le32_at m2 k.
Proof.
  intros Hlo Hhi. unfold spec_le32_at.
  now rewrite !table_byte_agree by lia.
Qed.

Lemma slot_fields_agree (i : nat) :
  (i < 4)%nat ->
  spec_status m1 i = spec_status m2 i
  /\ spec_type_code m1 i = spec_type_code m2 i
  /\ spec_start_lba m1 i = spec_start_lba m2 i
  /\ spec_sector_count m1 i = spec_sector_count m2 i.
Proof.
  intros Hi.
  unfold spec_status, spec_type_code, spec_start_lba, spec_sector_count.
  now rewrite !table_byte_agree, !table_le32_agree by lia.
Qed.

Lemma spec_is_empty_agree (i : nat) :
  (i < 4)%nat -> spec_is_empty m1 i = spec_is_empty m2 i.
Proof.
  intros Hi. destruct (slot_fields_agree i Hi) as (_ & Ht & _ & Hn).
  unfold spec_is_empty. now rewrite Ht, Hn.
Qed.

Lemma spec_entry_agree (i : nat) :
  (i < 4)%nat -> spec_entry m1 i = spec_entry m2 i.
Proof.
  intros Hi. destruct (slot_fields_agree i Hi) as (Hs & Ht & Hl & Hn).
  unfold spec_entry, spec_size_gib, spec_size_bytes.
  now rewrite (spec_is_empty_agree i Hi), Hs, Ht, Hl, Hn.
Qed.

Lemma spec_partition_agree (i : nat) :
  (i < 4)%nat -> spec_partition m1 i = spec_partition m2 i.
Proof.
  intros Hi. destruct (slot_fields_agree i Hi) as (Hs & Ht & Hl & Hn).
  unfold spec_partition, spec_size_gib, spec_size_bytes.
  now rewrite (spec_is_empty_agree i Hi), Hs, Ht, Hl, Hn.
Qed.


Lemma spec_real_slots_agree : spec_real_slots m1 = spec_real_slots m2.
Proof.
  unfold spec_real_slots. apply filter_ext_in.
  intros i Hi. apply in_seq in Hi.
  now rewrite spec_is_empty_agree by lia.
Qed.

Lemma spec_entries_agree :
  map (spec_entry m1) (range 4) = map (spec_entry m2) (range 4).
Proof.
  apply map_ext_in. intros i Hi. apply in_seq in Hi.
  apply spec_entry_agree. lia.
Qed.

Lemma spec_partitions_agree :
  map (spec_partition m1) (spec_real_slots m1)
  = map (spec_partition m2) (spec_real_slots m2).
Proof.
  rewrite spec_real_slots_agree. apply map_ext_in.
  intros i Hi. apply filter_In in Hi. destruct Hi as [Hi _].
  apply in_seq in Hi. apply spec_partition_agree. lia.
Qed.


End TableBytes.

Section Signature.

Variable mbr : bytes.
Hypothesis len : List.length mbr = 512%nat.




End Signature.

(** ** What the decoders return on a sector *)

Section Returned.

Variable mbr : bytes.

Lemma spec_entries_nth (i : nat) (e : Simple.entry) :
  nth_error (map (spec_entry mbr) (range 4)) i = Some e ->
  (i < 4)%nat /\ e = spec_entry mbr i.
Proof.
  unfold range. rewrite nth_error_map, nth_error_seq.
  destruct (Nat.ltb_spec i 4) as [Hi | Hi]; cbn [option_map Nat.add].
  - intros [= <-]. now split.
  - discriminate.
Qed.

Lemma spec_entries_in (e : Simple.entry) :
  In e (map (spec_entry mbr) (range 4)) ->
  exists i, (i < 4)%nat /\ e = spec_entry mbr i.
Proof.
  intros Hin. apply in_map_iff in Hin. destruct Hin as (i & <- & Hi).
  apply in_seq in Hi. exists i. split; [lia | reflexivity].
Qed.

Lemma spec_partitions_in (p : Analysis.partition) :
  In p (map (spec_partition mbr) (spec_real_slots mbr)) ->
  exists i, (i < 4)%nat /\ spec_is_empty mbr i = false
            /\ p = spec_partition mbr i.
Proof.
  intros Hin. apply in_map_iff in Hin. destruct Hin as (i & <- & Hi).
  apply filter_In in Hi. destruct Hi as [Hi He].
  apply in_seq in Hi. apply negb_true_iff in He.
  exists i. repeat split; [lia | exact He].
Qed.

Lemma real_entries_layout (slots : list nat) :
  real_entries (map (spec_entry mbr) slots)
  = map (spec_entry mbr) (filter (fun i => negb (spec_is_empty mbr i)) slots).
Proof.
  unfold real_entries.
  induction slots as [| i slots IH]; cbn [map filter]; [reflexivity |].
  cbn [spec_entry Simple.empty].
  destruct (spec_is_empty mbr i); cbn [negb map]; now rewrite IH.
Qed.

Lemma table_index_layout (slots : list nat) :
  map Analysis.table_index (map (spec_partition mbr) slots) = slots.
Proof.
  rewrite map_map. cbn [spec_partition Analysis.table_index]. apply map_id.
Qed.

Lemma index_layout (slots : list nat) :
  map Simple.index (map (spec_entry mbr) slots) = slots.
Proof.
  rewrite map_map. cbn [spec_entry Simple.index]. apply map_id.
Qed.

Lemma spec_real_slots_length : (List.length (spec_real_slots mbr) <= 4)%nat.
Proof.
  unfold spec_real_slots.
  etransitivity; [apply filter_length_le |]. reflexivity.
Qed.

Lemma spec_is_empty_false (i : nat) :
  spec_is_empty mbr i = false <->
  spec_type_code mbr i <> 0 /\ spec_sector_count mbr i <> 0.
Proof.
  unfold spec_is_empty. rewrite orb_false_iff, !N.eqb_neq. reflexivity.
Qed.

Lemma spec_is_empty_true (i : nat) :
  spec_is_empty mbr i = true <->
  spec_type_code mbr i = 0 \/ spec_sector_count mbr i = 0.
Proof.
  unfold spec_is_empty. rewrite orb_true_iff, !N.eqb_eq. reflexivity.
Qed.

End Returned.

(** ** The decoders on the sample sectors *)

(** A signed sector whose slot 0 holds a bootable Linux partition of
    204800 sectors at LBA 2048: one real partition, about 0.10 GB, no
    second real partition, and the largest is that of slot 0. *)
Example sample_linux_decoded :
  Analysis.signature_valid sample_linux = true
  /\ exists p,
       fst (Analysis.parse_mbr sample_linux []) = inr [p]
       /\ Analysis.table_index p = 0%nat
       /\ Analysis.bootable p = true
       /\ Analysis.type_description (Analysis.type p) = "Linux (0x83)"
       /\ Analysis.start_lba p = 2048
       /\ Analysis.num_sectors p = 204800
       /\ Analysis.size_bytes p = 104857600
       /\ fmt_2f (Analysis.size_gb p) = "0.10"
       /\ Analysis.secondRealPartition [p] = None
       /\ Analysis.largestPartition [p] = Some p.
Proof.
  split; [reflexivity |]. eexists.
  split; [vm_compute; reflexivity |]. repeat split.
Qed.

(** A sector of zeros: no real partition, nothing to highlight, and the
    warning about the signature. *)
Example sample_blank_decoded :
  Analysis.parse_mbr sample_blank [] = (inr [], spec_parse_output sample_blank)
  /\ In Analysis.signature_warning (spec_parse_output sample_blank)
  /\ Analysis.secondRealPartition [] = None
  /\ Analysis.largestPartition [] = None
  /\ (exists es,
        Simple.parse_mbr sample_blank = inr es
        /\ real_entries es = []
        /\ Simple.secondRealPartition (real_entries es) = None
        /\ Simple.largestPartition (real_entries es) = None).
Proof.
  split; [vm_compute; reflexivity |].
  split; [now left |]. split; [reflexivity |]. split; [reflexivity |].
  eexists. split; [vm_compute; reflexivity |]. repeat split.
Qed.

(** ** Entries and table order *)

(** C1, as stated, fails on the second analyser: on a sector whose only
    real partition sits in slot 2, [parse_mbr] of lines 310-368 returns
    one dictionary, not four, and its [table_index] is 2 although it
    stands at position 0 of the returned list. *)
Lemma C1_second_analyser_skips_empty_slots :
  List.length sample_slot2_only = 512%nat
  /\ (exists p out,
        Analysis.parse_mbr sample_slot2_only [] = (inr [p], out)
        /\ Analysis.table_index p = 2%nat)
  /\ ~ (exists ps out,
          Analysis.parse_mbr sample_slot2_only [] = (inr ps, out)
          /\ List.length ps = 4%nat
          /\ forall i p, nth_error ps i = Some p -> Analysis.table_index p = i).
Proof.
  split; [reflexivity |]. split.
  - do 2 eexists. split; [vm_compute; reflexivity | reflexivity].
  - intros (ps & out & Hrun & Hlen & _).
    vm_compute in Hrun. injection Hrun as Hps _. subst ps. discriminate Hlen.
Qed.

(** C1, amended: for every 512-byte sector, [parse_mbr] of the first and
    third analysers returns exactly 4 entries in table order, the entry at
    position [i] having [index = i]; [parse_mbr] of the second analyser
    returns, in table order, only the slots that are not empty (at most
    4), each with the number of its slot as [table_index]. *)
Theorem C1_entries_in_table_order (mbr : bytes) (out : stdout) :
  List.length mbr = 512%nat ->
  exists es ps out',
    Simple.parse_mbr mbr = inr es
    /\ Compact.parse_mbr mbr = inr es
    /\ List.length es = 4%nat
    /\ (forall i e, nth_error es i = Some e -> Simple.index e = i)
    /\ Analysis.parse_mbr mbr out = (inr ps, out')
    /\ map Analysis.table_index ps = map Simple.index (real_entries es)
    /\ (List.length ps <= 4)%nat.
Proof.
  intros Hlen.
  exists (map (spec_entry mbr) (range 4)),
    (map (spec_partition mbr) (spec_real_slots mbr)),
    (out ++ spec_parse_output mbr)%list.
  split; [apply Simple_parse_mbr_layout; lia |].
  split; [apply Compact_parse_mbr_layout; lia |].
  split; [reflexivity |].
  split.
  { intros i e Hnth. apply spec_entries_nth in Hnth.
    destruct Hnth as [_ ->]. reflexivity. }
  split; [now apply Analysis_parse_mbr_layout |].
  split.
  - rewrite real_entries_layout, table_index_layout, index_layout.
    reflexivity.
  - rewrite length_map. apply spec_real_slots_length.
Qed.

(** The theorem at a sector with partitions in slots 0, 1 and 3. *)
Lemma C1_entries_in_table_order_witness :
  List.length sample_three = 512%nat
  /\ exists es ps out',
       Simple.parse_mbr sample_three = inr es
       /\ Compact.parse_mbr sample_three = inr es
       /\ List.length es = 4%nat
       /\ (forall i e, nth_error es i = Some e -> Simple.index e = i)
       /\ Analysis.parse_mbr sample_three [] = (inr ps, out')
       /\ map Analysis.table_index ps = map Simple.index (real_entries es)
       /\ (List.length ps <= 4)%nat.
Proof.
  split; [reflexivity |].
  apply (C1_entries_in_table_order sample_three []). reflexivity.
Defined.

(** ** The boot signature *)



(** ** Repeated and related decodings *)

(** C9: decoding a 512-byte sector twice gives twice the same value.  For
    the second analyser, which prints while it decodes, the second run
    starts from the output the first one left: it returns the same
    partitions and prints the same lines again.  The first and third
    decoders return a value that is a function of the sector alone. *)
Theorem C9_decode_twice (mbr : bytes) (out : stdout) :
  List.length mbr = 512%nat ->
  exists ps printed es,
    Analysis.parse_mbr mbr out = (inr ps, (out ++ printed)%list)
    /\ Analysis.parse_mbr mbr (out ++ printed)%list
       = (inr ps, ((out ++ printed) ++ printed)%list)
    /\ bind (Analysis.parse_mbr mbr)
         (fun first =>
            bind (Analysis.parse_mbr mbr)
              (fun second => ret (first, second))) out
       = (inr (ps, ps), ((out ++ printed) ++ printed)%list)
    /\ Simple.parse_mbr mbr = inr es
    /\ Compact.parse_mbr mbr = inr es.
Proof.
  intros Hlen.
  exists (map (spec_partition mbr) (spec_real_slots mbr)),
    (spec_parse_output mbr), (map (spec_entry mbr) (range 4)).
  pose proof (fun o => Analysis_parse_mbr_layout mbr o Hlen) as Hrun.
  split; [apply Hrun |].
  split; [apply Hrun |].
  split.
  - rewrite (bind_run _ _ _ _ _ (Hrun out)).
    rewrite (bind_run _ _ _ _ _ (Hrun _)).
    reflexivity.
  - split; [apply Simple_parse_mbr_layout | apply Compact_parse_mbr_layout];
      lia.
Qed.

(** The theorem at a sector with partitions in slots 0, 1 and 3. *)
Lemma C9_decode_twice_witness :
  List.length sample_three = 512%nat
  /\ exists ps printed es,
       Analysis.parse_mbr sample_three [] = (inr ps, ([] ++ printed)%list)
       /\ Analysis.parse_mbr sample_three ([] ++ printed)%list
          = (inr ps, (([] ++ printed) ++ printed)%list)
       /\ bind (Analysis.parse_mbr sample_three)
            (fun first =>
               bind (Analysis.parse_mbr sample_three)
                 (fun second => ret (first, second))) []
          = (inr (ps, ps), (([] ++ printed) ++ printed)%list)
       /\ Simple.parse_mbr sample_three = inr es
       /\ Compact.parse_mbr sample_three = inr es.
Proof.
  split; [reflexivity |].
  apply (C9_decode_twice sample_three []). reflexivity.
Defined.

(** Two buffers have the same [b[446:510]] iff they agree on each of the
    bytes 446 to 509. *)
Lemma same_table_iff (m1 m2 : bytes) :
  (510 <= List.length m1)%nat -> (510 <= List.length m2)%nat ->
  slice m1 446 510 = slice m2 446 510 <->
  forall k, (446 <= k < 510)%nat -> nth k m1 x00 = nth k m2 x00.
Proof.
  intros H1 H2.
  assert (Hslice : forall b : bytes,
             (510 <= List.length b)%nat ->
             slice b 446 510 = map (fun j => nth (446 + j) b x00) (seq 0 64)).
  { intros b Hb. apply (slice_nth b 446 64). lia. }
  split.
  - intros Heq k Hk.
    rewrite (Hslice m1 H1), (Hslice m2 H2) in Heq.
    assert (Hnth := f_equal (fun l => nth (k - 446) l x00) Heq).
    cbv beta in Hnth.
    rewrite !(nth_indep (map _ _) x00 (nth (446 + 0) m1 x00)) in Hnth
      by (rewrite length_map, length_seq; lia).
    rewrite (map_nth (fun j => nth (446 + j) m1 x00)) in Hnth.
    rewrite (nth_indep (map _ _) _ (nth (446 + 0) m2 x00)) in Hnth
      by (rewrite length_map, length_seq; lia).
    rewrite (map_nth (fun j => nth (446 + j) m2 x00)) in Hnth.
    rewrite seq_nth in Hnth by lia.
    now replace (446 + (0 + (k - 446)))%nat with k in Hnth by lia.
  - intros Hall. rewrite (Hslice m1 H1), (Hslice m2 H2).
    apply map_ext_in. intros j Hj. apply in_seq in Hj. apply Hall. lia.
Qed.

(** C10: two 512-byte sectors that agree on bytes 446 to 509 decode to
    the same entries, whatever their boot code (bytes 0-445) and their
    signature (bytes 510-511), and whatever was printed before. *)
Theorem C10_entries_depend_on_table_bytes (m1 m2 : bytes)
  (out1 out2 : stdout) :
  List.length m1 = 512%nat ->
  List.length m2 = 512%nat ->
  slice m1 446 510 = slice m2 446 510 ->
  exists es ps out1' out2',
    Simple.parse_mbr m1 = inr es /\ Simple.parse_mbr m2 = inr es
    /\ Compact.parse_mbr m1 = inr es /\ Compact.parse_mbr m2 = inr es
    /\ Analysis.parse_mbr m1 out1 = (inr ps, out1')
    /\ Analysis.parse_mbr m2 out2 = (inr ps, out2').
Proof.
  intros H1 H2 Htable.
  assert (L1 : (510 <= List.length m1)%nat) by lia.
  assert (L2 : (510 <= List.length m2)%nat) by lia.
  exists (map (spec_entry m2) (range 4)),
    (map (spec_partition m2) (spec_real_slots m2)),
    (out1 ++ spec_parse_output m1)%list,
    (out2 ++ spec_parse_output m2)%list.
  rewrite <- (spec_entries_agree _ _ L1 L2 Htable).
  rewrite <- (spec_partitions_agree _ _ L1 L2 Htable).
  repeat split.
  - now apply Simple_parse_mbr_layout.
  - rewrite (spec_entries_agree _ _ L1 L2 Htable).
    now apply Simple_parse_mbr_layout.
  - now apply Compact_parse_mbr_layout.
  - rewrite (spec_entries_agree _ _ L1 L2 Htable).
    now apply Compact_parse_mbr_layout.
  - now apply Analysis_parse_mbr_layout.
  - rewrite (spec_partitions_agree _ _ L1 L2 Htable).
    now apply Analysis_parse_mbr_layout.
Qed.

(** The theorem at two sectors with the same table, different boot code
    and different last two bytes. *)
Lemma C10_entries_depend_on_table_bytes_witness :
  List.length sample_two_equal = 512%nat
  /\ List.length sample_unsigned = 512%nat
  /\ slice sample_two_equal 446 510 = slice sample_unsigned 446 510
  /\ slice sample_two_equal 0 446 <> slice sample_unsigned 0 446
  /\ exists es ps out1' out2',
       Simple.parse_mbr sample_two_equal = inr es
       /\ Simple.parse_mbr sample_unsigned = inr es
       /\ Compact.parse_mbr sample_two_equal = inr es
       /\ Compact.parse_mbr sample_unsigned = inr es
       /\ Analysis.parse_mbr sample_two_equal [] = (inr ps, out1')
       /\ Analysis.parse_mbr sample_unsigned ["earlier output"]
          = (inr ps, out2').
Proof.
  split; [reflexivity |]. split; [reflexivity |]. split; [reflexivity |].
  split; [intros H; vm_compute in H; discriminate H |].
  apply (C10_entries_depend_on_table_bytes sample_two_equal sample_unsigned
           [] ["earlier output"]); reflexivity.
Defined.

(** ** Fields of the decoded entries *)

(** C6: in what the decoders return for a 512-byte sector, an entry of
    the first analyser is marked empty iff its type code or its sector
    count is 0, an empty entry has size 0, and the size of any other is
    [sectors * 512 / 2^30]; the second analyser keeps exactly the entries
    that are not empty, with [size_bytes = num_sectors * 512] and
    [size_gb = size_bytes / 2^30]. *)
Theorem C6_empty_and_size (mbr : bytes) (out : stdout) :
  List.length mbr = 512%nat ->
  exists es ps out',
    Simple.parse_mbr mbr = inr es
    /\ Analysis.parse_mbr mbr out = (inr ps, out')
    /\ (forall e, In e es ->
          (Simple.empty e = true <->
           Simple.ptype e = 0 \/ Simple.sectors e = 0)
          /\ (Simple.empty e = true -> Simple.size_gb e = 0%Q)
          /\ (Simple.empty e = false ->
              Simple.size_gb e
              = Qmake (Z.of_N (Simple.sectors e * 512)) (2 ^ 30)))
    /\ (forall p, In p ps ->
          Analysis.type p <> 0
          /\ Analysis.num_sectors p <> 0
          /\ Analysis.size_bytes p = Analysis.num_sectors p * 512
          /\ Analysis.size_gb p
             = Qmake (Z.of_N (Analysis.size_bytes p)) (2 ^ 30))
    /\ (forall e, In e es ->
          Simple.empty e = false <->
          exists p, In p ps /\ Analysis.table_index p = Simple.index e).
Proof.
  intros Hlen.
  exists (map (spec_entry mbr) (range 4)),
    (map (spec_partition mbr) (spec_real_slots mbr)),
    (out ++ spec_parse_output mbr)%list.
  split; [apply Simple_parse_mbr_layout; lia |].
  split; [now apply Analysis_parse_mbr_layout |].
  split; [| split].
  - intros e He. apply spec_entries_in in He. destruct He as (i & Hi & ->).
    cbn [spec_entry Simple.empty Simple.ptype Simple.sectors Simple.size_gb].
    split; [apply spec_is_empty_true |].
    unfold spec_size_gib, spec_size_bytes.
    split; intros ->; reflexivity.
  - intros p Hp. apply spec_partitions_in in Hp.
    destruct Hp as (i & Hi & Hne & ->).
    cbn [spec_partition Analysis.type Analysis.num_sectors
           Analysis.size_bytes Analysis.size_gb].
    unfold spec_size_gib, spec_size_bytes. rewrite Hne.
    apply spec_is_empty_false in Hne. destruct Hne as [Ht Hn].
    repeat split; assumption.
  - intros e He. apply spec_entries_in in He. destruct He as (i & Hi & ->).
    cbn [spec_entry Simple.empty Simple.index].
    split.
    + intros Hne. exists (spec_partition mbr i). split; [| reflexivity].
      apply in_map. apply filter_In. split.
      * apply in_seq. lia.
      * now rewrite Hne.
    + intros (p & Hp & Hidx). apply spec_partitions_in in Hp.
      destruct Hp as (j & Hj & Hne & ->).
      cbn [spec_partition Analysis.table_index] in Hidx. now subst j.
Qed.

(** The theorem at a sector with partitions in slots 0, 1 and 3. *)
Lemma C6_empty_and_size_witness :
  List.length sample_three = 512%nat
  /\ exists es ps out',
       Simple.parse_mbr sample_three = inr es
       /\ Analysis.parse_mbr sample_three [] = (inr ps, out')
       /\ (forall e, In e es ->
             (Simple.empty e = true <->
              Simple.ptype e = 0 \/ Simple.sectors e = 0)
             /\ (Simple.empty e = true -> Simple.size_gb e = 0%Q)
             /\ (Simple.empty e = false ->
                 Simple.size_gb e
                 = Qmake (Z.of_N (Simple.sectors e * 512)) (2 ^ 30)))
       /\ (forall p, In p ps ->
             Analysis.type p <> 0
             /\ Analysis.num_sectors p <> 0
             /\ Analysis.size_bytes p = Analysis.num_sectors p * 512
             /\ Analysis.size_gb p
                = Qmake (Z.of_N (Analysis.size_bytes p)) (2 ^ 30))
       /\ (forall e, In e es ->
             Simple.empty e = false <->
             exists p, In p ps /\ Analysis.table_index p = Simple.index e).
Proof.
  split; [reflexivity |].
  apply (C6_empty_and_size sample_three []). reflexivity.
Defined.

(** C7: for each slot [i] of a 512-byte sector the decoders take the
    status from the byte at [446 + 16*i], the type code from the byte at
    [446 + 16*i + 4], the start LBA from the four bytes at
    [446 + 16*i + 8] and the sector count from the four bytes at
    [446 + 16*i + 12], both little-endian, and the bootable flag holds
    iff the status byte is 0x80.  The second analyser prints the four
    raw fields of every slot and returns those of the slots it keeps. *)
Theorem C7_field_offsets (mbr : bytes) (out : stdout) (i : nat) :
  List.length mbr = 512%nat ->
  (i < 4)%nat ->
  let byte_at k := to_N (nth k mbr x00) in
  let le32_at k :=
    byte_at k + 2 ^ 8 * byte_at (k + 1)%nat + 2 ^ 16 * byte_at (k + 2)%nat
    + 2 ^ 24 * byte_at (k + 3)%nat in
  let status := byte_at (446 + 16 * i)%nat in
  let type_code := byte_at (446 + 16 * i + 4)%nat in
  let start_lba := le32_at (446 + 16 * i + 8)%nat in
  let sector_count := le32_at (446 + 16 * i + 12)%nat in
  exists es e ps printed,
    Simple.parse_mbr mbr = inr es
    /\ nth_error es i = Some e
    /\ Simple.ptype e = type_code
    /\ Simple.lba e = start_lba
    /\ Simple.sectors e = sector_count
    /\ (Simple.boot e = true <-> status = 0x80)
    /\ Analysis.parse_mbr mbr out = (inr ps, (out ++ printed)%list)
    /\ In ("Entry " ++ str_nat i ++ ": status=0x" ++ fmt_02X status
           ++ ", type=0x" ++ fmt_02X type_code
           ++ ", start_lba=" ++ str_int start_lba
           ++ ", sectors=" ++ str_int sector_count) printed
    /\ (forall p, In p ps -> Analysis.table_index p = i ->
          Analysis.type p = type_code
          /\ Analysis.start_lba p = start_lba
          /\ Analysis.num_sectors p = sector_count
          /\ (Analysis.bootable p = true <-> status = 0x80)).
Proof.
  intros Hlen Hi. cbv zeta.
  exists (map (spec_entry mbr) (range 4)), (spec_entry mbr i),
    (map (spec_partition mbr) (spec_real_slots mbr)),
    (spec_parse_output mbr).
  split; [apply Simple_parse_mbr_layout; lia |].
  split.
  { unfold range. rewrite nth_error_map, nth_error_seq.
    destruct (Nat.ltb_spec i 4) as [_ | Hge]; [reflexivity | lia]. }
  split; [reflexivity |]. split; [reflexivity |]. split; [reflexivity |].
  split; [apply N.eqb_eq |].
  split; [now apply Analysis_parse_mbr_layout |].
  split.
  - unfold spec_parse_output.
    apply in_or_app. right. apply in_or_app. right.
    apply in_or_app. left.
    change (In (spec_debug_line mbr i) (map (spec_debug_line mbr) (range 4))).
    apply in_map. apply in_seq. lia.
  - intros p Hp Hidx. apply spec_partitions_in in Hp.
    destruct Hp as (j & Hj & Hne & ->).
    cbn [spec_partition Analysis.table_index] in Hidx. subst j.
    repeat split; try reflexivity; apply N.eqb_eq.
Qed.

(** The theorem at slot 1 of a sector that holds there a bootable Linux
    partition starting at LBA 2048, 204800 sectors long. *)
Lemma C7_field_offsets_witness :
  List.length sample_three = 512%nat
  /\ (1 < 4)%nat
  /\ exists es e ps printed,
       Simple.parse_mbr sample_three = inr es
       /\ nth_error es 1 = Some e
       /\ Simple.ptype e = 0x83
       /\ Simple.lba e = 2048
       /\ Simple.sectors e = 204800
       /\ (Simple.boot e = true <-> 0x80 = 0x80)
       /\ Analysis.parse_mbr sample_three [] = (inr ps, ([] ++ printed)%list)
       /\ In "Entry 1: status=0x80, type=0x83, start_lba=2048, sectors=204800"
            printed
       /\ (forall p, In p ps -> Analysis.table_index p = 1%nat ->
             Analysis.type p = 0x83
             /\ Analysis.start_lba p = 2048
             /\ Analysis.num_sectors p = 204800
             /\ (Analysis.bootable p = true <-> 0x80 = 0x80)).
Proof.
  split; [reflexivity |]. split; [lia |].
  exact (C7_field_offsets sample_three [] 1 eq_refl ltac:(lia)).
Defined.

(** ** The highlighted partitions *)

Section PyMax.

Context {A K : Type} (key : A -> K) (gt : K -> K -> bool) (w : A -> N).

Lemma py_max_snoc (x : A) (rest : list A) (y : A) :
  py_max key gt x (rest ++ [y]) =
  if gt (key y) (key (py_max key gt x rest)) then y
  else py_max key gt x rest.
Proof. unfold py_max. now rewrite fold_left_app. Qed.

(** When [gt] on keys is [>] on weights, [max] is the stable maximum. *)
Lemma py_max_first_greatest (x : A) (rest : list A) :
  (forall a b, In a (x :: rest) -> In b (x :: rest) ->
               gt (key a) (key b) = (w b <? w a)) ->
  first_greatest w (x :: rest) (py_max key gt x rest).
Proof.
  induction rest as [| y rest IH] using rev_ind; intros Hgt.
  - exists 0%nat. cbn. split; [reflexivity |]. split.
    + intros q [<- | []]. reflexivity.
    + intros j q Hj. lia.
  - assert (Hsub : forall a, In a (x :: rest) -> In a (x :: rest ++ [y])).
    { intros a [<- | Ha]; [now left | right; apply in_or_app; now left]. }
    destruct IH as (k & Hk & Hle & Hlt).
    { intros a b Ha Hb. apply Hgt; now apply Hsub. }
    set (m := py_max key gt x rest) in *.
    assert (Hm : In m (x :: rest)) by exact (nth_error_In _ _ Hk).
    assert (Hy : In y (x :: rest ++ [y])%list).
    { right. apply in_or_app. right. now left. }
    assert (Hklen : (k < List.length (x :: rest))%nat).
    { apply nth_error_Some. now rewrite Hk. }
    rewrite py_max_snoc. fold m.
    rewrite (Hgt y m Hy (Hsub m Hm)).
    change (x :: rest ++ [y])%list with ((x :: rest) ++ [y])%list.
    destruct (N.ltb_spec (w m) (w y)) as [Hlt' | Hge].
    + exists (List.length (x :: rest)). split; [| split].
      * rewrite nth_error_app2 by lia. now rewrite Nat.sub_diag.
      * intros q Hq. apply in_app_or in Hq. destruct Hq as [Hq | [<- | []]].
        -- specialize (Hle q Hq). lia.
        -- lia.
      * intros j q Hj Hq. rewrite nth_error_app1 in Hq by exact Hj.
        specialize (Hle q (nth_error_In _ _ Hq)). lia.
    + exists k. split; [| split].
      * now rewrite nth_error_app1 by exact Hklen.
      * intros q Hq. apply in_app_or in Hq. destruct Hq as [Hq | [<- | []]].
        -- now apply Hle.
        -- exact Hge.
      * intros j q Hj Hq. rewrite nth_error_app1 in Hq by lia.
        now apply (Hlt j).
Qed.

End PyMax.

Lemma float_gt_same_den (a b : N) (d : positive) :
  float_gt (Qmake (Z.of_N a) d) (Qmake (Z.of_N b) d) = (b <? a).
Proof.
  unfold float_gt, Qle_bool. cbn [Qnum Qden].
  destruct (Z.leb_spec (Z.of_N a * Z.pos d) (Z.of_N b * Z.pos d)) as [H | H];
    destruct (N.ltb_spec b a) as [H' | H']; cbn [negb];
    try reflexivity; exfalso; nia.
Qed.

Lemma Analysis_largest_first_greatest (partitions : list Analysis.partition) :
  match Analysis.largestPartition partitions with
  | None => partitions = []
  | Some p => first_greatest Analysis.size_bytes partitions p
  end.
Proof.
  destruct partitions as [| p rest]; cbn [Analysis.largestPartition];
    [reflexivity |].
  apply py_max_first_greatest. intros a b _ _. reflexivity.
Qed.

(** Among entries that are not empty the order of [size_gb] is the order
    of the sizes in bytes. *)
Lemma Simple_largest_first_greatest (real_parts : list Simple.entry) :
  (forall e, In e real_parts ->
             Simple.size_gb e
             = Qmake (Z.of_N (Simple.sectors e * 512)) (2 ^ 30)) ->
  match Simple.largestPartition real_parts with
  | None => real_parts = []
  | Some p => first_greatest (fun e => Simple.sectors e * 512) real_parts p
  end.
Proof.
  intros Hsize.
  destruct real_parts as [| p rest]; cbn [Simple.largestPartition];
    [reflexivity |].
  apply py_max_first_greatest. intros a b Ha Hb.
  rewrite (Hsize a Ha), (Hsize b Hb). apply float_gt_same_den.
Qed.

Lemma first_greatest_tie {A} (w : A -> N) (p q r : A) :
  w p = w q -> first_greatest w [p; q] r -> r = p.
Proof.
  intros Hw (k & Hk & Hle & Hlt).
  destruct k as [| [| k]]; cbn in Hk.
  - now injection Hk.
  - injection Hk as <-. specialize (Hlt 0%nat p ltac:(lia) eq_refl). lia.
  - destruct k; discriminate Hk.
Qed.

Lemma real_entries_size (mbr : bytes) (e : Simple.entry) :
  In e (real_entries (map (spec_entry mbr) (range 4))) ->
  Simple.size_gb e = Qmake (Z.of_N (Simple.sectors e * 512)) (2 ^ 30).
Proof.
  unfold real_entries. intros He. apply filter_In in He.
  destruct He as [He Hne]. apply spec_entries_in in He.
  destruct He as (i & _ & ->). apply negb_true_iff in Hne.
  cbn [spec_entry Simple.empty Simple.size_gb Simple.sectors] in *.
  unfold spec_size_gib, spec_size_bytes. now rewrite Hne.
Qed.

(** C4: for the partitions decoded from a 512-byte sector, the largest
    partition is absent when there is no real partition, and otherwise
    it is the first, in table order, of the real partitions of greatest
    size in bytes; with two real partitions of equal size it is the
    first of the two, so the one of slot 0 when they sit in slots 0
    and 2. *)
Theorem C4_largest_partition (mbr : bytes) (out : stdout) :
  List.length mbr = 512%nat ->
  exists ps out' es,
    Analysis.parse_mbr mbr out = (inr ps, out')
    /\ Simple.parse_mbr mbr = inr es
    /\ (ps = [] -> Analysis.largestPartition ps = None)
    /\ (ps <> [] ->
        exists p, Analysis.largestPartition ps = Some p
                  /\ first_greatest Analysis.size_bytes ps p)
    /\ (forall p0 p2,
          ps = [p0; p2] ->
          Analysis.table_index p0 = 0%nat ->
          Analysis.table_index p2 = 2%nat ->
          Analysis.size_bytes p0 = Analysis.size_bytes p2 ->
          Analysis.largestPartition ps = Some p0)
    /\ (real_entries es = [] ->
        Simple.largestPartition (real_entries es) = None)
    /\ (real_entries es <> [] ->
        exists e, Simple.largestPartition (real_entries es) = Some e
                  /\ first_greatest (fun e => Simple.sectors e * 512)
                       (real_entries es) e)
    /\ (forall e0 e2,
          real_entries es = [e0; e2] ->
          Simple.index e0 = 0%nat ->
          Simple.index e2 = 2%nat ->
          Simple.sectors e0 * 512 = Simple.sectors e2 * 512 ->
          Simple.largestPartition (real_entries es) = Some e0).
Proof.
  intros Hlen.
  exists (map (spec_partition mbr) (spec_real_slots mbr)),
    (out ++ spec_parse_output mbr)%list, (map (spec_entry mbr) (range 4)).
  set (ps := map (spec_partition mbr) (spec_real_slots mbr)).
  set (real := real_entries (map (spec_entry mbr) (range 4))).
  pose proof (Analysis_largest_first_greatest ps) as HA.
  pose proof (Simple_largest_first_greatest real (real_entries_size mbr))
    as HS.
  split; [now apply Analysis_parse_mbr_layout |].
  split; [apply Simple_parse_mbr_layout; lia |].
  split; [now intros -> |].
  split.
  { intros Hne. destruct (Analysis.largestPartition ps) as [p |];
      [now exists p | contradiction]. }
  split.
  { intros p0 p2 Hps _ _ Hsize.
    destruct (Analysis.largestPartition ps) as [p |].
    - rewrite Hps in HA. f_equal. now apply (first_greatest_tie _ _ _ _ Hsize).
    - rewrite Hps in HA. discriminate HA. }
  split; [now intros -> |].
  split.
  { intros Hne. destruct (Simple.largestPartition real) as [e |];
      [now exists e | contradiction]. }
  intros e0 e2 Hreal _ _ Hsize.
  destruct (Simple.largestPartition real) as [e |].
  - rewrite Hreal in HS. f_equal.
    now apply (first_greatest_tie (fun e => Simple.sectors e * 512) _ _ _ Hsize).
  - rewrite Hreal in HS. discriminate HS.
Qed.

(** The theorem at a sector with two partitions of 204800 sectors, in
    slots 0 and 2. *)
Lemma C4_largest_partition_witness :
  List.length sample_two_equal = 512%nat
  /\ exists ps out' p,
       Analysis.parse_mbr sample_two_equal [] = (inr ps, out')
       /\ map Analysis.table_index ps = [0; 2]%nat
       /\ map Analysis.size_bytes ps = [104857600; 104857600]
       /\ Analysis.largestPartition ps = Some p
       /\ Analysis.table_index p = 0%nat.
Proof.
  split; [reflexivity |].
  destruct (C4_largest_partition sample_two_equal [] eq_refl)
    as (ps & out' & es & Hrun & _ & _ & _ & Htie & _).
  vm_compute in Hrun. injection Hrun as Hps Hout. subst ps out'.
  do 3 eexists. split; [vm_compute; reflexivity |].
  split; [reflexivity |]. split; [reflexivity |].
  split; [eapply Htie; reflexivity | reflexivity].
Defined.

(** ** Loops that only print *)

Section PrintLoops.

Lemma bind_assoc_run {A B C} (c : M A) (k1 : A -> M B) (k2 : B -> M C)
  (out : stdout) :
  bind (bind c k1) k2 out = bind c (fun a => bind (k1 a) k2) out.
Proof. unfold bind. now destruct (c out) as [[e | a] out']. Qed.

Lemma bind_lift_inr {A B} (a : A) (k : A -> M B) (out : stdout) :
  bind (lift (inr a)) k out = k a out.
Proof. reflexivity. Qed.

Lemma for_inM_total {A S} (xs : list A) (body : S -> A -> M S) :
  (forall s x out, exists s' out', body s x out = (inr s', out')) ->
  forall s out, exists s' out', for_inM xs body s out = (inr s', out').
Proof.
  intros Hbody. induction xs as [| x xs IH]; intros s out; cbn [for_inM].
  - now exists s, out.
  - destruct (Hbody s x out) as (s1 & out1 & H1).
    rewrite (bind_run _ _ _ _ _ H1). apply IH.
Qed.

Lemma Simple_print_entry_run (real_parts : list Simple.entry) (i : nat)
  (p : Simple.entry) (out : stdout) :
  exists out',
    Simple.print_entry real_parts (i, p) out =
    (inr (if Simple.empty p then real_parts else real_parts ++ [p])%list,
     out').
Proof.
  unfold Simple.print_entry. rewrite !bind_print.
  destruct (Simple.empty p); rewrite !bind_print; eexists; reflexivity.
Qed.

(** The loop of lines 236-249 collects the entries that are not empty. *)
Lemma Simple_print_loop (es : list Simple.entry) :
  forall (start : nat) (acc : list Simple.entry) (out : stdout),
  exists out',
    for_inM (combine (seq start (List.length es)) es) Simple.print_entry
      acc out
    = (inr (acc ++ real_entries es)%list, out').
Proof.
  induction es as [| e es IH]; intros start acc out;
    cbn [List.length seq combine for_inM].
  - exists out. unfold ret, real_entries. cbn [filter]. now rewrite app_nil_r.
  - destruct (Simple_print_entry_run acc start e out) as [out1 H1].
    rewrite (bind_run _ _ _ _ _ H1).
    destruct (IH (S start)
                (if Simple.empty e then acc else (acc ++ [e])%list) out1)
      as [out2 H2].
    exists out2. rewrite H2. f_equal. f_equal.
    unfold real_entries. cbn [filter].
    destruct (Simple.empty e); cbn [negb]; [reflexivity |].
    now rewrite <- app_assoc.
Qed.

Lemma list_index_found {A} (eqb : A -> A -> bool) (x : A) (xs : list A) :
  eqb x x = true -> In x xs -> exists k, list_index eqb x xs = inr k.
Proof.
  intros Hrefl. induction xs as [| y xs IH]; intros Hin; [destruct Hin |].
  cbn [list_index]. destruct (eqb y x) eqn:E; [now exists 0%nat |].
  destruct Hin as [-> | Hin]; [congruence |].
  destruct (IH Hin) as [k ->]. now exists (S k).
Qed.

Lemma partition_eqb_refl (p : Analysis.partition) :
  Analysis.partition_eqb p p = true.
Proof.
  unfold Analysis.partition_eqb.
  rewrite Nat.eqb_refl, Bool.eqb_reflx, !N.eqb_refl.
  cbn [andb]. apply Qeq_bool_iff. reflexivity.
Qed.

Lemma py_max_in {A K} (key : A -> K) (gt : K -> K -> bool) (x : A)
  (rest : list A) :
  In (py_max key gt x rest) (x :: rest).
Proof.
  induction rest as [| y rest IH] using rev_ind; [now left |].
  rewrite py_max_snoc.
  destruct (gt (key y) (key (py_max key gt x rest))).
  - right. apply in_or_app. right. now left.
  - destruct IH as [IH | IH]; [now left |].
    right. apply in_or_app. now left.
Qed.

Lemma Analysis_print_block_run (u : unit) (ip : nat * Analysis.partition)
  (out : stdout) :
  exists s' out', Analysis.print_block u ip out = (inr s', out').
Proof.
  destruct ip as [idx p]. unfold Analysis.print_block.
  rewrite !bind_print. unfold print. now eexists _, _.
Qed.

(** [print_partition_info] never raises. *)
Lemma Analysis_print_partition_info_total
  (partitions : list Analysis.partition) (out : stdout) :
  exists out',
    Analysis.print_partition_info partitions out = (inr tt, out').
Proof.
  unfold Analysis.print_partition_info. rewrite bind_print.
  destruct partitions as [| p rest]; cbn [Analysis.largestPartition].
  { unfold print. now eexists. }
  set (partitions := p :: rest).
  set (largest := py_max Analysis.size_bytes int_gt p rest).
  match goal with
  | |- context [bind (for_inM ?xs ?body ?s) _ ?o] =>
      destruct (for_inM_total xs body Analysis_print_block_run s o)
        as ([] & out1 & H1)
  end.
  rewrite (bind_run _ _ _ _ _ H1).
  destruct (list_index_found Analysis.partition_eqb largest partitions
              (partition_eqb_refl largest)
              (py_max_in Analysis.size_bytes int_gt p rest)) as [k Hk].
  rewrite Hk.
  destruct (Analysis.secondRealPartition partitions);
    repeat (rewrite bind_assoc_run || rewrite bind_print);
    rewrite bind_lift_inr, !bind_print; unfold print; now eexists.
Qed.

End PrintLoops.

Section WholeRuns.

Variable fs : filesystem.
Variable path : string.
Variable content : bytes.
Hypothesis regular_file : fs path = Some content.

Lemma read_first_length (n : nat) :
  (n <= List.length content)%nat ->
  List.length (read_first content n) = n.
Proof. intros Hn. unfold read_first. rewrite length_firstn. lia. Qed.

Lemma read_first_short (n : nat) :
  (List.length content <= n)%nat -> read_first content n = content.
Proof. intros Hn. unfold read_first. now apply firstn_all2. Qed.

(** [analyze] of the first analyser never raises on an image of at least
    510 bytes. *)
Lemma Simple_analyze_total (out : stdout) :
  (510 <= List.length content)%nat ->
  exists out', Simple.analyze fs path out = (inr tt, out').
Proof.
  intros Hlen. unfold Simple.analyze. rewrite regular_file.
  rewrite bind_print.
  rewrite Simple_parse_mbr_layout
    by (unfold read_first; rewrite length_firstn; cbn; lia).
  rewrite bind_lift_inr, bind_print.
  match goal with
  | |- context [bind (for_inM ?xs ?body ?st) _ ?o] =>
      assert (Hbody : forall s x out0,
                 exists s' out', body s x out0 = (inr s', out'))
        by (intros [] [i p] out0; unfold print; now eexists _, _);
      destruct (for_inM_total xs body Hbody st o) as ([] & out1 & H1)
  end.
  rewrite (bind_run _ _ _ _ _ H1), !bind_print.
  match goal with
  | |- context [bind (for_inM (enumerate ?es 1) _ _) _ ?o] =>
      destruct (Simple_print_loop es 1 [] o) as [out2 H2]
  end.
  unfold enumerate. rewrite (bind_run _ _ _ _ _ H2), bind_print.
  cbn [app].
  destruct (Simple.secondRealPartition _);
    repeat (rewrite bind_assoc_run || rewrite bind_print);
    destruct (Simple.largestPartition _);
    rewrite ?bind_print; unfold print, ret; now eexists.
Qed.

(** [analyze_image] of the second analyser never raises on an image of
    at least 512 bytes. *)
Lemma Analysis_analyze_image_total (out : stdout) :
  (512 <= List.length content)%nat ->
  exists out', Analysis.analyze_image fs path out = (inr tt, out').
Proof.
  intros Hlen. unfold Analysis.analyze_image. rewrite regular_file.
  rewrite !bind_print.
  rewrite (bind_run _ _ _ _ _
             (Analysis_parse_mbr_layout _ _ (read_first_length 512 Hlen))).
  apply Analysis_print_partition_info_total.
Qed.

End WholeRuns.

Lemma second_is_nth_error_1 {A} (l : list A) :
  (if (2 <=? List.length l)%nat then nth_error l 1 else None) = nth_error l 1
  /\ (nth_error l 1 = None <-> (List.length l < 2)%nat).
Proof.
  destruct l as [| a [| b l]]; cbn; split; try reflexivity;
    split; intros H; try reflexivity; try discriminate H; lia.
Qed.

(** C5: the real partitions of a 512-byte sector are its entries that
    are not empty, in table order: the list returned by [parse_mbr] of
    the second analyser, and the list [real_parts] built by [analyze] of
    the first.  The second real partition is the element at position 1
    of that list, and it is absent exactly when the list has fewer than
    2 elements; that case is reported by a message, and neither analyser
    raises. *)
Theorem C5_second_real_partition (fs : filesystem) (path : string)
  (mbr : bytes) (out : stdout) :
  fs path = Some mbr ->
  List.length mbr = 512%nat ->
  exists ps out1 es real out2,
    Analysis.parse_mbr mbr out = (inr ps, out1)
    /\ Simple.parse_mbr mbr = inr es
    /\ for_inM (enumerate es 1) Simple.print_entry [] out = (inr real, out2)
    /\ real = filter (fun e => negb (Simple.empty e)) es
    /\ map Analysis.table_index ps = map Simple.index real
    /\ Analysis.secondRealPartition ps = nth_error ps 1
    /\ (Analysis.secondRealPartition ps = None <-> (List.length ps < 2)%nat)
    /\ Simple.secondRealPartition real = nth_error real 1
    /\ (Simple.secondRealPartition real = None
        <-> (List.length real < 2)%nat)
    /\ (exists out', Analysis.analyze_image fs path out = (inr tt, out'))
    /\ (exists out', Simple.analyze fs path out = (inr tt, out')).
Proof.
  intros Hfs Hlen.
  destruct (Simple_print_loop (map (spec_entry mbr) (range 4)) 1 [] out)
    as [out2 Hloop].
  exists (map (spec_partition mbr) (spec_real_slots mbr)),
    (out ++ spec_parse_output mbr)%list,
    (map (spec_entry mbr) (range 4)),
    (real_entries (map (spec_entry mbr) (range 4))), out2.
  split; [now apply Analysis_parse_mbr_layout |].
  split; [apply Simple_parse_mbr_layout; lia |].
  split; [exact Hloop |].
  split; [reflexivity |].
  split.
  { now rewrite real_entries_layout, table_index_layout, index_layout. }
  unfold Analysis.secondRealPartition, Simple.secondRealPartition.
  split; [apply second_is_nth_error_1 |].
  split.
  { rewrite (proj1 (second_is_nth_error_1 _)). apply second_is_nth_error_1. }
  split; [apply second_is_nth_error_1 |].
  split.
  { rewrite (proj1 (second_is_nth_error_1 _)). apply second_is_nth_error_1. }
  split.
  - apply (Analysis_analyze_image_total fs path mbr Hfs). lia.
  - apply (Simple_analyze_total fs path mbr Hfs). lia.
Qed.

(** The theorem at an image with partitions in slots 0, 1 and 3. *)
Lemma C5_second_real_partition_witness :
  sample_fs sample_three "image.dd" = Some sample_three
  /\ List.length sample_three = 512%nat
  /\ exists ps second,
       fst (Analysis.parse_mbr sample_three []) = inr ps
       /\ map Analysis.table_index ps = [0; 1; 3]%nat
       /\ Analysis.secondRealPartition ps = Some second
       /\ Analysis.table_index second = 1%nat.
Proof.
  split; [reflexivity |]. split; [reflexivity |].
  destruct (C5_second_real_partition (sample_fs sample_three) "image.dd"
              sample_three [] eq_refl eq_refl)
    as (ps & out1 & es & real & out2 & Hrun & _ & _ & _ & _ & Hsecond & _).
  vm_compute in Hrun. injection Hrun as Hps Hout. subst ps out1.
  do 2 eexists. split; [vm_compute; reflexivity |].
  split; [reflexivity |].
  split; [rewrite Hsecond; reflexivity | reflexivity].
Defined.

(** ** Images shorter than a sector *)

(** C2, as stated, fails: on an image of 511 bytes the read returns the
    511 bytes without failing and the decoder is called on them.  In the
    second analyser the error that ends the run is raised by [parse_mbr];
    in the first and third analysers nothing fails, and four entries are
    decoded from the short buffer. *)
Lemma C2_short_image_reaches_the_decoder :
  List.length sample_short = 511%nat
  /\ read_first sample_short 512 = sample_short
  /\ Analysis.parse_mbr (read_first sample_short 512) []
     = (inl (ValueError "MBR must be exactly 512 bytes"), [])
  /\ Analysis.analyze_image (sample_fs sample_short) "image.dd" []
     = (inl (ValueError "MBR must be exactly 512 bytes"),
        ["Opened image: image.dd";
         "Image size   : 511 bytes (~0.00 GB)" ++ NL])
  /\ (exists es,
        Compact.parse_mbr (read_first sample_short 512) = inr es
        /\ List.length es = 4%nat)
  /\ fst (Compact.analyze (sample_fs sample_short) "image.dd" []) = inr tt
  /\ fst (Simple.analyze (sample_fs sample_short) "image.dd" []) = inr tt.
Proof.
  repeat split; try (vm_compute; reflexivity).
  eexists. split; vm_compute; reflexivity.
Qed.

(** C2, amended: for every image of fewer than 512 bytes, the read of
    [analyze_image] returns the whole content without failing;
    [parse_mbr] is called on it and raises [ValueError] before it decodes
    any slot; [analyze_image] ends with that error, having printed only
    the name and the size of the image, and [main] reports it. *)
Theorem C2_short_image_is_rejected_by_the_decoder (fs : filesystem)
  (path : string) (content : bytes) (out : stdout) :
  fs path = Some content ->
  (List.length content < 512)%nat ->
  let too_small := ValueError "MBR must be exactly 512 bytes" in
  let printed :=
    ["Opened image: " ++ path;
     "Image size   : " ++ str_int (N.of_nat (List.length content))
     ++ " bytes (~"
     ++ fmt_2f (true_div (N.of_nat (List.length content)) (1024 ^ 3))
     ++ " GB)" ++ NL] in
  read_first content 512 = content
  /\ (forall o, Analysis.parse_mbr content o = (inl too_small, o))
  /\ Analysis.analyze_image fs path out = (inl too_small, (out ++ printed)%list)
  /\ Analysis.main fs path out
     = (inr tt,
        (out ++ printed ++ ["[!] Error: MBR must be exactly 512 bytes"])%list).
Proof.
  intros Hfs Hlen too_small printed.
  assert (Hread : read_first content 512 = content)
    by (apply read_first_short; lia).
  assert (Hparse : forall o, Analysis.parse_mbr content o = (inl too_small, o)).
  { intros o. unfold Analysis.parse_mbr.
    destruct (N.eqb_spec (N.of_nat (List.length content)) Analysis.SECTOR_SIZE)
      as [Heq | Hne]; [| reflexivity].
    unfold Analysis.SECTOR_SIZE in Heq. lia. }
  assert (Hrun : Analysis.analyze_image fs path out
                 = (inl too_small, (out ++ printed)%list)).
  { unfold Analysis.analyze_image. rewrite Hfs, !bind_print.
    change (N.to_nat Analysis.SECTOR_SIZE) with 512%nat.
    rewrite Hread.
    rewrite (bind_raise _ _ _ _ _ (Hparse _)).
    now rewrite <- app_assoc. }
  split; [exact Hread |]. split; [exact Hparse |]. split; [exact Hrun |].
  unfold Analysis.main. rewrite Hrun. unfold print.
  now rewrite <- app_assoc.
Qed.

(** The theorem at an image of 511 bytes. *)
Lemma C2_short_image_is_rejected_by_the_decoder_witness :
  sample_fs sample_short "image.dd" = Some sample_short
  /\ (List.length sample_short < 512)%nat
  /\ Analysis.main (sample_fs sample_short) "image.dd" []
     = (inr tt,
        ["Opened image: image.dd";
         "Image size   : 511 bytes (~0.00 GB)" ++ NL;
         "[!] Error: MBR must be exactly 512 bytes"]).
Proof.
  assert (Hlen : (List.length sample_short < 512)%nat)
    by (vm_compute; lia).
  split; [reflexivity |]. split; [exact Hlen |].
  exact (proj2 (proj2 (proj2
    (C2_short_image_is_rejected_by_the_decoder (sample_fs sample_short)
       "image.dd" sample_short [] eq_refl Hlen)))).
Defined.

(** ** Type classification *)

Lemma byte_cases (P : N -> bool) :
  forallb P (map N.of_nat (seq 0 256)) = true ->
  forall n, n <= 255 -> P n = true.
Proof.
  intros Hall n Hn. rewrite forallb_forall in Hall. apply Hall.
  apply in_map_iff. exists (N.to_nat n). split; [apply N2Nat.id |].
  apply in_seq. lia.
Qed.

Lemma unknown_label_all_bytes (code : N) :
  code <= 255 -> unknown_label_check code = true.
Proof. apply byte_cases. vm_compute. reflexivity. Qed.

(** C8, as stated, fails on [type_name]: the labels of the first
    analyser for 0x07 and 0xEE are "NTFS" and "GPT Protective", not the
    "NTFS/exFAT/HPFS" and "GPT Protective MBR" of the specification, and
    they do not even contain them.  Nor does [type_description] return
    the labels of the specification: its labels carry the code in
    parentheses, a "W95 " prefix on the FAT ones, and "GPT protective
    MBR" has a lower-case p. *)
Lemma C8_labels_differ_from_the_specification :
  spec_type_label 0x07 = Some "NTFS/exFAT/HPFS"
  /\ Simple.type_name 0x07 = "NTFS"
  /\ spec_type_label 0xEE = Some "GPT Protective MBR"
  /\ Simple.type_name 0xEE = "GPT Protective"
  /\ spec_type_label 0x0B = Some "FAT32"
  /\ Analysis.type_description 0x0B = "W95 FAT32 (0x0B)"
  /\ ~ (forall code label,
          spec_type_label code = Some label ->
          Simple.type_name code = label)
  /\ ~ (forall code label,
          spec_type_label code = Some label ->
          mentions (Simple.type_name code) label = true)
  /\ ~ (forall code label,
          spec_type_label code = Some label ->
          Analysis.type_description code = label).
Proof.
  do 6 (split; [reflexivity |]).
  split; [| split]; intros H.
  - specialize (H 0x07 _ eq_refl). discriminate H.
  - specialize (H 0x07 _ eq_refl). vm_compute in H. discriminate H.
  - specialize (H 0x0B _ eq_refl). discriminate H.
Qed.

(** C8, amended: [type_description] maps 0x07, 0x0B, 0x0C, 0x0E, 0x82,
    0x83 and 0xEE to "NTFS/exFAT/HPFS (0x07)", "W95 FAT32 (0x0B)",
    "W95 FAT32 LBA (0x0C)", "W95 FAT16 LBA (0x0E)", "Linux Swap (0x82)",
    "Linux (0x83)" and "GPT protective MBR (0xEE)"; [type_name] maps
    them to "NTFS", "FAT32", "FAT32 LBA", "FAT16 LBA", "Linux Swap",
    "Linux" and "GPT Protective".  Every other type code from 0x00 to
    0xFF gets the label "Unknown / Other (0xNN)" from [type_description]
    and "Unknown (0xNN)" from [type_name], where NN is the code as two
    upper-case hexadecimal digits, which read back to the code. *)
Theorem C8_type_classification :
  (Analysis.type_description 0x07 = "NTFS/exFAT/HPFS (0x07)"
   /\ Analysis.type_description 0x0B = "W95 FAT32 (0x0B)"
   /\ Analysis.type_description 0x0C = "W95 FAT32 LBA (0x0C)"
   /\ Analysis.type_description 0x0E = "W95 FAT16 LBA (0x0E)"
   /\ Analysis.type_description 0x82 = "Linux Swap (0x82)"
   /\ Analysis.type_description 0x83 = "Linux (0x83)"
   /\ Analysis.type_description 0xEE = "GPT protective MBR (0xEE)")
  /\ (Simple.type_name 0x07 = "NTFS"
      /\ Simple.type_name 0x0B = "FAT32"
      /\ Simple.type_name 0x0C = "FAT32 LBA"
      /\ Simple.type_name 0x0E = "FAT16 LBA"
      /\ Simple.type_name 0x82 = "Linux Swap"
      /\ Simple.type_name 0x83 = "Linux"
      /\ Simple.type_name 0xEE = "GPT Protective")
  /\ (forall code : N,
        code <= 255 -> ~ In code known_codes ->
        String.length (fmt_02X code) = 2%nat
        /\ hex_value (fmt_02X code) = Some code
        /\ Analysis.type_description code
           = "Unknown / Other (0x" ++ fmt_02X code ++ ")"
        /\ Simple.type_name code = "Unknown (0x" ++ fmt_02X code ++ ")").
Proof.
  split; [repeat split |]. split; [repeat split |].
  intros code Hbyte Hunknown.
  pose proof (unknown_label_all_bytes code Hbyte) as Hcheck.
  unfold unknown_label_check in Hcheck.
  apply orb_true_iff in Hcheck. destruct Hcheck as [Hknown | Hcheck].
  - exfalso. apply Hunknown. apply existsb_exists in Hknown.
    destruct Hknown as (k & Hk & Heq). apply N.eqb_eq in Heq. now subst k.
  - apply andb_true_iff in Hcheck. destruct Hcheck as [Hcheck Hhex].
    apply andb_true_iff in Hcheck. destruct Hcheck as [Hcheck Hlen].
    apply andb_true_iff in Hcheck. destruct Hcheck as [Hdesc Hname].
    apply String.eqb_eq in Hdesc. apply String.eqb_eq in Hname.
    apply Nat.eqb_eq in Hlen.
    destruct (hex_value (fmt_02X code)) as [v |]; [| discriminate Hhex].
    apply N.eqb_eq in Hhex. subst v. now repeat split.
Qed.

(** The theorem at type code 0x05. *)
Lemma C8_type_classification_witness :
  0x05 <= 255 /\ ~ In 0x05 known_codes
  /\ Analysis.type_description 0x05 = "Unknown / Other (0x05)"
  /\ Simple.type_name 0x05 = "Unknown (0x05)"
  /\ hex_value "05" = Some 0x05.
Proof.
  assert (H1 : 0x05 <= 255) by (vm_compute; discriminate).
  assert (H2 : ~ In 0x05 known_codes).
  { intros H. repeat (destruct H as [H | H]; [discriminate H |]). exact H. }
  destruct (proj2 (proj2 C8_type_classification) 0x05 H1 H2)
    as (_ & Hhex & Hdesc & Hname).
  repeat split; assumption.
Defined.

(** ** The CSV reports *)

Section CsvReports.

Variable os_path_exists : string -> bool.
Variable glob_glob : string -> list string.
Variable os_path_basename : string -> string.
Variable csv_rows : string -> list ImportCsv.row.
Variable str_lower : string -> string.

Ltac split_columns r :=
  unfold column_text;
  unfold column, ImportCsv.or_str, ImportCsv.py_or, ImportCsv.truthy,
    ImportCsv.fmt;
  cbn [map first_nonempty];
  repeat match goal with
         | |- context [r ?k] => destruct (r k)
         end;
  repeat (cbn [negb];
          first
            [ match goal with
              | H : String.eqb ?s "" = _ |- context [String.eqb ?s ""] =>
                  rewrite H
              end
            | match goal with
              | |- context [String.eqb ?s ""] =>
                  is_var s; destruct (String.eqb s "") eqn:?
              end ]);
  reflexivity.

Lemma column_of_three (r : ImportCsv.row) (k1 k2 k3 : string) :
  column [k1; k2; k3] r =
  let v := ImportCsv.py_or (ImportCsv.py_or (r k1) (r k2)) (r k3) in
  if ImportCsv.truthy v then Some (ImportCsv.fmt v) else None.
Proof. cbv zeta. split_columns r. Qed.

Lemma column_of_two (r : ImportCsv.row) (k1 k2 : string) :
  column [k1; k2] r =
  let v := ImportCsv.py_or (r k1) (r k2) in
  if ImportCsv.truthy v then Some (ImportCsv.fmt v) else None.
Proof. cbv zeta. split_columns r. Qed.



(** A loop that prints the line of each row that has one, counts the
    lines and stops at [limit] prints the first [limit] lines. *)
Lemma capped_loop {A} (limit : nat) (body : nat -> A -> M (nat * bool))
  (line : A -> option string) :
  (forall count r out,
     body count r out =
     match line r with
     | Some l =>
         (inr ((count + 1)%nat, Nat.eqb (count + 1) limit), (out ++ [l])%list)
     | None => (inr (count, Nat.eqb count limit), out)
     end) ->
  forall rows count out,
    (count < limit)%nat ->
    exists c,
      for_breakM rows body count out =
      (inr c, (out ++ firstn (limit - count) (lines_of line rows))%list).
Proof.
  intros Hbody. induction rows as [| r rows IH]; intros count out Hcount.
  - exists count. cbn. unfold ret. now rewrite firstn_nil, app_nil_r.
  - cbn [for_breakM]. unfold bind. rewrite Hbody.
    unfold lines_of. cbn [flat_map]. fold (lines_of line rows).
    destruct (line r) as [l |]; cbn [snd fst app].
    + destruct (Nat.eqb_spec (count + 1) limit) as [Heq | Hne].
      * exists (count + 1)%nat. unfold ret.
        replace (limit - count)%nat with 1%nat by lia.
        cbn [firstn]. reflexivity.
      * destruct (IH (count + 1)%nat (out ++ [l])%list ltac:(lia)) as [c Hc].
        exists c. rewrite Hc.
        replace (limit - count)%nat with (S (limit - (count + 1))) by lia.
        cbn [firstn]. now rewrite <- app_assoc.
    + destruct (Nat.eqb_spec count limit) as [Heq | Hne]; [lia |].
      apply IH. exact Hcount.
Qed.

Lemma program_body_run (count : nat) (r : ImportCsv.row) (out : stdout) :
  ImportCsv.program_body count r out =
  match program_line r with
  | Some l =>
      (inr ((count + 1)%nat, Nat.eqb (count + 1) 10), (out ++ [l])%list)
  | None => (inr (count, Nat.eqb count 10), out)
  end.
Proof.
  unfold ImportCsv.program_body, program_line. rewrite column_of_three.
  cbv zeta. now destruct (ImportCsv.truthy _).
Qed.

Lemma run_body_run (count : nat) (r : ImportCsv.row) (out : stdout) :
  ImportCsv.run_body count r out =
  match run_line r with
  | Some l =>
      (inr ((count + 1)%nat, Nat.eqb (count + 1) 15), (out ++ [l])%list)
  | None => (inr (count, Nat.eqb count 15), out)
  end.
Proof.
  unfold ImportCsv.run_body, run_line.
  rewrite column_of_three, column_of_two. cbv zeta.
  destruct (ImportCsv.truthy (ImportCsv.py_or (ImportCsv.py_or _ _) _));
    [| reflexivity].
  now destruct (ImportCsv.truthy (ImportCsv.py_or _ _)).
Qed.


Lemma user_body_run (u : unit) (r : ImportCsv.row) (out : stdout) :
  ImportCsv.user_body u r out =
  (inr tt,
   (out ++ match user_line r with Some l => [l] | None => [] end)%list).
Proof.
  unfold ImportCsv.user_body, user_line.
  rewrite column_of_three, column_of_two. cbv zeta.
  destruct (ImportCsv.truthy (ImportCsv.py_or (ImportCsv.py_or _ _) _)).
  - now destruct (ImportCsv.truthy (ImportCsv.py_or _ _)).
  - unfold ret. now rewrite app_nil_r.
Qed.

Lemma user_loop (rows : list ImportCsv.row) (out : stdout) :
  for_inM rows ImportCsv.user_body tt out =
  (inr tt, (out ++ lines_of user_line rows)%list).
Proof.
  revert out. induction rows as [| r rows IH]; intros out; cbn [for_inM].
  - unfold ret. cbn. now rewrite app_nil_r.
  - rewrite (bind_run _ _ _ _ _ (user_body_run tt r out)), IH.
    unfold lines_of. cbn [flat_map]. now rewrite <- app_assoc.
Qed.


End CsvReports.

Lemma bind_ret {A B} (a : A) (k : A -> M B) (out : stdout) :
  bind (ret a) k out = k a out.
Proof. reflexivity. Qed.

Lemma truthy_path (path : string) :
  path <> "" -> ImportCsv.truthy (Some path) = true.
Proof.
  intros Hne. unfold ImportCsv.truthy.
  destruct (String.eqb_spec path ""); [contradiction | reflexivity].
Qed.

(** X12: when a file matches [*Installed*Program*.csv],
    [show_installed_programs] reads the first match and lists, after its
    three heading lines, the names of the first ten rows that have a
    name, in the order of the file; the name of a row is its first
    non-empty column among [Program Name], [Name] and [DisplayName]. *)
Theorem installed_programs_first_ten
  (glob_glob : string -> list string) (os_path_basename : string -> string)
  (csv_rows : string -> list ImportCsv.row)
  (path : string) (more : list string) (out : stdout) :
  glob_glob "*Installed*Program*.csv" = path :: more ->
  path <> "" ->
  ImportCsv.show_installed_programs glob_glob os_path_basename csv_rows out =
  (inr tt,
   (out
    ++ [("[+] Installed programs: using " ++ os_path_basename path)%string;
        (NL ++ "=== Installed Programs ===")%string;
        ("Total rows: " ++ str_nat (List.length (csv_rows path)))%string]
    ++ firstn 10 (lines_of program_line (csv_rows path))
    ++ [""])%list).
Proof.
  intros Hglob Hpath.
  unfold ImportCsv.show_installed_programs, ImportCsv.find_csv.
  rewrite Hglob, bind_assoc_run, bind_print, bind_ret.
  rewrite (truthy_path path Hpath). cbn [negb ImportCsv.fmt].
  unfold ImportCsv.read_csv. rewrite !bind_print.
  match goal with
  | |- context [bind (for_breakM ?rows _ _) _ ?o] =>
      destruct (capped_loop 10 ImportCsv.program_body program_line
                  program_body_run rows 0%nat o ltac:(lia)) as [c Hc]
  end.
  rewrite (bind_run _ _ _ _ _ Hc). unfold print.
  now rewrite <- !app_assoc.
Qed.

(** The theorem on a file of twelve rows, eight of them with a name. *)
Lemma installed_programs_first_ten_witness :
  sample_glob "*Installed*Program*.csv"
  = ["reports/*Installed*Program*.csv"]
  /\ "reports/*Installed*Program*.csv" <> ""
  /\ ImportCsv.show_installed_programs sample_glob (fun p => p)
       (fun _ => sample_many_programs) []
     = (inr tt,
        ["[+] Installed programs: using reports/*Installed*Program*.csv";
         NL ++ "=== Installed Programs ==="; "Total rows: 12";
         "- Firefox"; "- VLC"; "- Firefox"; "- VLC"; "- Firefox"; "- VLC";
         "- Firefox"; "- VLC"; ""]).
Proof.
  assert (Hpath : "reports/*Installed*Program*.csv" <> "") by discriminate.
  split; [reflexivity |]. split; [exact Hpath |].
  exact (installed_programs_first_ten sample_glob (fun p => p)
           (fun _ => sample_many_programs) _ [] [] eq_refl Hpath).
Defined.

(** X13: when a file matches [Users*.csv], [show_user_accounts] lists
    every row that has a user name, however many there are: the name is
    the first non-empty column among [Login Name], [User Name] and
    [Name], and it is followed by the SID when [SID] or [User SID] is
    not empty. *)
Theorem user_accounts_all_named
  (glob_glob : string -> list string) (os_path_basename : string -> string)
  (csv_rows : string -> list ImportCsv.row)
  (path : string) (more : list string) (out : stdout) :
  glob_glob "Users*.csv" = path :: more ->
  path <> "" ->
  ImportCsv.show_user_accounts glob_glob os_path_basename csv_rows out =
  (inr tt,
   (out
    ++ [("[+] User accounts: using " ++ os_path_basename path)%string;
        "=== User Accounts ===";
        ("Total rows: " ++ str_nat (List.length (csv_rows path)))%string]
    ++ lines_of user_line (csv_rows path)
    ++ [""])%list).
Proof.
  intros Hglob Hpath.
  unfold ImportCsv.show_user_accounts, ImportCsv.find_csv.
  rewrite Hglob, bind_assoc_run, bind_print, bind_ret.
  rewrite (truthy_path path Hpath). cbn [negb ImportCsv.fmt].
  unfold ImportCsv.read_csv. rewrite !bind_print.
  rewrite (bind_run _ _ _ _ _ (user_loop _ _)). unfold print.
  now rewrite <- !app_assoc.
Qed.

(** The theorem on three rows: a user with a SID, a user whose SID is
    empty, and a row without a user name. *)
Lemma user_accounts_all_named_witness :
  sample_glob "Users*.csv" = ["reports/Users*.csv"]
  /\ "reports/Users*.csv" <> ""
  /\ ImportCsv.show_user_accounts sample_glob (fun p => p)
       (fun _ => sample_users) []
     = (inr tt,
        ["[+] User accounts: using reports/Users*.csv";
         "=== User Accounts ==="; "Total rows: 3";
         "- alice (SID: S-1-5-21-1001)"; "- bob"; ""]).
Proof.
  assert (Hpath : "reports/Users*.csv" <> "") by discriminate.
  split; [reflexivity |]. split; [exact Hpath |].
  exact (user_accounts_all_named sample_glob (fun p => p)
           (fun _ => sample_users) _ [] [] eq_refl Hpath).
Defined.







(** X15: when a file matches [*Run*Program*History*.csv],
    [show_run_history] lists the first fifteen rows that have a command,
    in the order of the file; the command is the first non-empty column
    among [Command], [Command Line] and [Program Name], preceded by the
    date in brackets when [Date/Time] or [Timestamp] is not empty. *)
Theorem run_history_first_fifteen
  (glob_glob : string -> list string) (os_path_basename : string -> string)
  (csv_rows : string -> list ImportCsv.row)
  (path : string) (more : list string) (out : stdout) :
  glob_glob "*Run*Program*History*.csv" = path :: more ->
  path <> "" ->
  ImportCsv.show_run_history glob_glob os_path_basename csv_rows out =
  (inr tt,
   (out
    ++ [("[+] Run / command history: using " ++ os_path_basename path)%string;
        "=== Run Program / Command History ===";
        ("Total rows: " ++ str_nat (List.length (csv_rows path)))%string]
    ++ firstn 15 (lines_of run_line (csv_rows path))
    ++ [""])%list).
Proof.
  intros Hglob Hpath.
  unfold ImportCsv.show_run_history, ImportCsv.find_csv.
  rewrite Hglob, bind_assoc_run, bind_print, bind_ret.
  rewrite (truthy_path path Hpath). cbn [negb ImportCsv.fmt].
  unfold ImportCsv.read_csv. rewrite !bind_print.
  match goal with
  | |- context [bind (for_breakM ?rows _ _) _ ?o] =>
      destruct (capped_loop 15 ImportCsv.run_body run_line
                  run_body_run rows 0%nat o ltac:(lia)) as [c Hc]
  end.
  rewrite (bind_run _ _ _ _ _ Hc). unfold print.
  now rewrite <- !app_assoc.
Qed.

(** The theorem on three rows: a dated command, an undated one, and a
    row without a command. *)
Lemma run_history_first_fifteen_witness :
  sample_glob "*Run*Program*History*.csv"
  = ["reports/*Run*Program*History*.csv"]
  /\ "reports/*Run*Program*History*.csv" <> ""
  /\ ImportCsv.show_run_history sample_glob (fun p => p)
       (fun _ => sample_runs) []
     = (inr tt,
        ["[+] Run / command history: using reports/*Run*Program*History*.csv";
         "=== Run Program / Command History ==="; "Total rows: 3";
         "- [2024-01-01] cmd.exe"; "- notepad"; ""]).
Proof.
  assert (Hpath : "reports/*Run*Program*History*.csv" <> "") by discriminate.
  split; [reflexivity |]. split; [exact Hpath |].
  exact (run_history_first_fifteen sample_glob (fun p => p)
           (fun _ => sample_runs) _ [] [] eq_refl Hpath).
Defined.

(** X16: in a directory where no CSV file matches, the script prints its
    heading, the state of the three hive files in the order SAM, SYSTEM,
    SOFTWARE, and one notice for each of the four reports; it opens no
    file and ends normally. *)
Theorem empty_directory_report
  (os_path_exists : string -> bool) (glob_glob : string -> list string)
  (os_path_basename : string -> string)
  (csv_rows : string -> list ImportCsv.row)
  (str_lower str_strip : string -> string) (out : stdout) :
  glob_glob "*Installed*Program*.csv" = [] ->
  glob_glob "Users*.csv" = [] ->
  filter (fun f => ImportCsv.str_in "usb" (str_lower f)) (glob_glob "*.csv")
  = [] ->
  glob_glob "*Run*Program*History*.csv" = [] ->
  let hive name :=
    if os_path_exists name then "[+] Found hive file: " ++ name
    else "[!] MISSING hive file: " ++ name in
  ImportCsv.main os_path_exists glob_glob os_path_basename csv_rows
    str_lower str_strip out =
  (inr tt,
   (out
    ++ [("Simple Forensic Script for Task 2" ++ NL)%string;
        "=== Registry hive check ===";
        hive "SAM"; hive "SYSTEM"; hive "SOFTWARE"; "";
        ("[!] Installed programs: CSV file not found for pattern: "
         ++ "*Installed*Program*.csv")%string;
        "";
        "[!] User accounts: CSV file not found for pattern: Users*.csv";
        "";
        ("[!] USB devices: no CSV file with 'USB' in the name was found."
         ++ NL)%string;
        ("[!] Run / command history: CSV file not found for pattern: "
         ++ "*Run*Program*History*.csv")%string;
        ""])%list).
Proof.
  intros Hprograms Husers Husb Hruns hive.
  unfold ImportCsv.main, ImportCsv.check_hives,
    ImportCsv.show_installed_programs, ImportCsv.show_user_accounts,
    ImportCsv.show_usb_devices, ImportCsv.show_run_history,
    ImportCsv.find_csv.
  rewrite Hprograms, Husers, Husb, Hruns.
  cbn [for_inM]. subst hive. cbv beta.
  destruct (os_path_exists "SAM"), (os_path_exists "SYSTEM"),
    (os_path_exists "SOFTWARE");
    repeat first [ rewrite bind_assoc_run
                 | rewrite bind_print
                 | rewrite bind_ret
                 | progress cbn [ImportCsv.truthy negb] ];
    unfold print; repeat (rewrite <- app_assoc; cbn [app]); reflexivity.
Qed.

(** The theorem in an empty directory that holds none of the hives. *)
Lemma empty_directory_report_witness :
  ImportCsv.main (fun _ => false) (fun _ => []) (fun p => p) (fun _ => [])
    (fun s => s) (fun s => s) []
  = (inr tt,
     ["Simple Forensic Script for Task 2" ++ NL;
      "=== Registry hive check ===";
      "[!] MISSING hive file: SAM"; "[!] MISSING hive file: SYSTEM";
      "[!] MISSING hive file: SOFTWARE"; "";
      "[!] Installed programs: CSV file not found for pattern: "
      ++ "*Installed*Program*.csv";
      "";
      "[!] User accounts: CSV file not found for pattern: Users*.csv";
      "";
      "[!] USB devices: no CSV file with 'USB' in the name was found." ++ NL;
      "[!] Run / command history: CSV file not found for pattern: "
      ++ "*Run*Program*History*.csv";
      ""]).
Proof.
  exact (empty_directory_report (fun _ => false) (fun _ => []) (fun p => p)
           (fun _ => []) (fun s => s) (fun s => s) []
           eq_refl eq_refl eq_refl eq_refl).
Defined.

(** ** Buffers of other lengths *)

Lemma struct_unpack_bad_length (part : bytes) :
  List.length part <> 16%nat ->
  struct_unpack part = inl (struct_error "unpack requires a buffer of 16 bytes").
Proof.
  intros Hlen. unfold struct_unpack.
  do 17 (destruct part as [| ? part];
         [first [reflexivity | exfalso; cbn in Hlen; lia] |]).
  reflexivity.
Qed.

Lemma slice_length (b : bytes) (lo n : nat) :
  List.length (slice b lo (lo + n)) = Nat.min n (List.length b - lo).
Proof.
  unfold slice. rewrite length_firstn, length_skipn. f_equal. lia.
Qed.

Lemma Simple_parse_slot_short (mbr : bytes) (entries : list Simple.entry)
  (i : nat) :
  (List.length mbr < 446 + 16 * i + 16)%nat ->
  Simple.parse_slot mbr entries i
  = inl (struct_error "unpack requires a buffer of 16 bytes").
Proof.
  intros Hlen. unfold Simple.parse_slot.
  rewrite struct_unpack_bad_length; [reflexivity |].
  rewrite slice_length. lia.
Qed.

Lemma Simple_parse_mbr_short (mbr : bytes) :
  (List.length mbr < 510)%nat ->
  Simple.parse_mbr mbr
  = inl (struct_error "unpack requires a buffer of 16 bytes").
Proof.
  intros Hlen. unfold Simple.parse_mbr, range. cbn [seq for_in].
  destruct (Nat.lt_ge_cases (List.length mbr) 462) as [H0 | H0].
  { now rewrite Simple_parse_slot_short by lia. }
  rewrite Simple_parse_slot by lia. cbn [bindR].
  destruct (Nat.lt_ge_cases (List.length mbr) 478) as [H1 | H1].
  { now rewrite Simple_parse_slot_short by lia. }
  rewrite Simple_parse_slot by lia. cbn [bindR].
  destruct (Nat.lt_ge_cases (List.length mbr) 494) as [H2 | H2].
  { now rewrite Simple_parse_slot_short by lia. }
  rewrite Simple_parse_slot by lia. cbn [bindR].
  now rewrite Simple_parse_slot_short by lia.
Qed.

Lemma Compact_parse_mbr_eq (mbr : bytes) :
  Compact.parse_mbr mbr = Simple.parse_mbr mbr.
Proof. reflexivity. Qed.

(** X2: the third analyser is the first one rewritten: its [parse_mbr],
    its [type_name] and its [analyze] return and print, on every input,
    what those of the first analyser do. *)
Theorem compact_is_simple :
  (forall mbr, Compact.parse_mbr mbr = Simple.parse_mbr mbr)
  /\ (forall pt, Compact.type_name pt = Simple.type_name pt)
  /\ (forall fs path out,
        Compact.analyze fs path out = Simple.analyze fs path out).
Proof. repeat split. Qed.

(** X1: [parse_mbr] of the first and third analysers does not check the
    length of its buffer: it returns 4 entries for any buffer of at least
    510 bytes, longer than a sector or two bytes shorter, and it raises
    [struct.error] for any buffer of fewer than 510 bytes. *)
Theorem parse_mbr_needs_510_bytes (mbr : bytes) :
  ((510 <= List.length mbr)%nat ->
   exists es,
     Simple.parse_mbr mbr = inr es /\ Compact.parse_mbr mbr = inr es
     /\ List.length es = 4%nat)
  /\ ((List.length mbr < 510)%nat ->
      Simple.parse_mbr mbr
      = inl (struct_error "unpack requires a buffer of 16 bytes")
      /\ Compact.parse_mbr mbr
         = inl (struct_error "unpack requires a buffer of 16 bytes")).
Proof.
  split.
  - intros Hlen. exists (map (spec_entry mbr) (range 4)).
    split; [now apply Simple_parse_mbr_layout |].
    split; [now apply Compact_parse_mbr_layout | reflexivity].
  - intros Hlen.
    split; [| rewrite Compact_parse_mbr_eq]; now apply Simple_parse_mbr_short.
Qed.

(** The theorem at a buffer of 511 bytes and at one of 509 bytes. *)
Lemma parse_mbr_needs_510_bytes_witness :
  (510 <= List.length sample_short)%nat
  /\ (List.length sample_too_short < 510)%nat
  /\ (exists es,
        Simple.parse_mbr sample_short = inr es
        /\ Compact.parse_mbr sample_short = inr es
        /\ List.length es = 4%nat)
  /\ Simple.parse_mbr sample_too_short
     = inl (struct_error "unpack requires a buffer of 16 bytes").
Proof.
  assert (H1 : (510 <= List.length sample_short)%nat) by (vm_compute; lia).
  assert (H2 : (List.length sample_too_short < 510)%nat)
    by (vm_compute; lia).
  split; [exact H1 |]. split; [exact H2 |].
  split.
  - exact (proj1 (parse_mbr_needs_510_bytes sample_short) H1).
  - exact (proj1 (proj2 (parse_mbr_needs_510_bytes sample_too_short) H2)).
Defined.

(** ** Ranges of the decoded fields *)

Lemma spec_byte_at_bound (mbr : bytes) (k : nat) : spec_byte_at mbr k <= 255.
Proof. apply to_N_bounded. Qed.

Lemma spec_le32_at_bound (mbr : bytes) (k : nat) :
  spec_le32_at mbr k < 2 ^ 32.
Proof.
  unfold spec_le32_at.
  pose proof (spec_byte_at_bound mbr k).
  pose proof (spec_byte_at_bound mbr (k + 1)).
  pose proof (spec_byte_at_bound mbr (k + 2)).
  pose proof (spec_byte_at_bound mbr (k + 3)).
  change (2 ^ 8) with 256. change (2 ^ 16) with 65536.
  change (2 ^ 24) with 16777216. change (2 ^ 32) with 4294967296.
  lia.
Qed.

(** X3: every field decoded from a 512-byte sector is in range: slot
    numbers are below 4, type codes at most 255, start LBA and sector
    count below 2^32, sizes in GB from 0 to less than 2048; a partition
    kept by the second analyser has a type code and a sector count of at
    least 1 and a size between 512 and (2^32 - 1) * 512 bytes. *)
Theorem decoded_fields_are_bounded (mbr : bytes) (out : stdout) :
  List.length mbr = 512%nat ->
  exists es ps out',
    Simple.parse_mbr mbr = inr es
    /\ Analysis.parse_mbr mbr out = (inr ps, out')
    /\ (forall e, In e es ->
          (Simple.index e < 4)%nat
          /\ Simple.ptype e <= 255
          /\ Simple.lba e < 2 ^ 32
          /\ Simple.sectors e < 2 ^ 32
          /\ (0 <= Simple.size_gb e)%Q
          /\ (Simple.size_gb e < 2048)%Q)
    /\ (forall p, In p ps ->
          (Analysis.table_index p < 4)%nat
          /\ 1 <= Analysis.type p <= 255
          /\ Analysis.start_lba p < 2 ^ 32
          /\ 1 <= Analysis.num_sectors p < 2 ^ 32
          /\ 512 <= Analysis.size_bytes p <= (2 ^ 32 - 1) * 512
          /\ (0 < Analysis.size_gb p)%Q
          /\ (Analysis.size_gb p < 2048)%Q).
Proof.
  intros Hlen.
  exists (map (spec_entry mbr) (range 4)),
    (map (spec_partition mbr) (spec_real_slots mbr)),
    (out ++ spec_parse_output mbr)%list.
  split; [apply Simple_parse_mbr_layout; lia |].
  split; [now apply Analysis_parse_mbr_layout |].
  split.
  - intros e He. apply spec_entries_in in He. destruct He as (i & Hi & ->).
    cbn [spec_entry Simple.index Simple.ptype Simple.lba Simple.sectors
           Simple.size_gb].
    pose proof (spec_le32_at_bound mbr (446 + 16 * i + 12)) as Hn.
    fold (spec_sector_count mbr i) in Hn.
    split; [exact Hi |]. split; [apply spec_byte_at_bound |].
    split; [apply spec_le32_at_bound |]. split; [exact Hn |].
    unfold spec_size_gib, spec_size_bytes.
    change (2 ^ 32) with 4294967296 in Hn.
    destruct (spec_is_empty mbr i).
    + split; [apply Qle_refl | reflexivity].
    + unfold Qle, Qlt. cbn [Qnum Qden]. split; lia.
  - intros p Hp. apply spec_partitions_in in Hp.
    destruct Hp as (i & Hi & Hne & ->).
    cbn [spec_partition Analysis.table_index Analysis.type
           Analysis.start_lba Analysis.num_sectors Analysis.size_bytes
           Analysis.size_gb].
    pose proof (spec_le32_at_bound mbr (446 + 16 * i + 12)) as Hn.
    fold (spec_sector_count mbr i) in Hn.
    pose proof (spec_byte_at_bound mbr (446 + 16 * i + 4)) as Ht.
    fold (spec_type_code mbr i) in Ht.
    unfold spec_size_gib, spec_size_bytes. rewrite Hne.
    apply spec_is_empty_false in Hne. destruct Hne as [Ht0 Hn0].
    change (2 ^ 32) with 4294967296 in *.
    split; [exact Hi |]. split; [lia |].
    split; [apply spec_le32_at_bound |]. split; [lia |]. split; [lia |].
    unfold Qlt. cbn [Qnum Qden]. split; lia.
Qed.

(** The theorem at a sector with partitions in slots 0, 1 and 3. *)
Lemma decoded_fields_are_bounded_witness :
  List.length sample_three = 512%nat
  /\ exists es ps,
       Simple.parse_mbr sample_three = inr es
       /\ fst (Analysis.parse_mbr sample_three []) = inr ps
       /\ (forall e, In e es -> Simple.sectors e < 2 ^ 32)
       /\ (forall p, In p ps ->
             512 <= Analysis.size_bytes p <= (2 ^ 32 - 1) * 512).
Proof.
  split; [reflexivity |].
  destruct (decoded_fields_are_bounded sample_three [] eq_refl)
    as (es & ps & out' & Hes & Hps & Hentries & Hparts).
  exists es, ps. split; [exact Hes |].
  split; [now rewrite Hps |].
  split.
  - intros e He. apply (Hentries e He).
  - intros p Hp. apply (Hparts p Hp).
Defined.

(** ** The two analysers on the same sector *)

(** X4: on a 512-byte sector, what [parse_mbr] of the second analyser
    returns is, field for field, the entries of the first analyser that
    are not marked empty, in the same order, with [size_bytes] set to
    [sectors * 512]. *)
Theorem second_analyser_keeps_real_entries (mbr : bytes) (out : stdout) :
  List.length mbr = 512%nat ->
  exists es ps out',
    Simple.parse_mbr mbr = inr es
    /\ Analysis.parse_mbr mbr out = (inr ps, out')
    /\ ps = map partition_of_entry
              (filter (fun e => negb (Simple.empty e)) es).
Proof.
  intros Hlen.
  exists (map (spec_entry mbr) (range 4)),
    (map (spec_partition mbr) (spec_real_slots mbr)),
    (out ++ spec_parse_output mbr)%list.
  split; [apply Simple_parse_mbr_layout; lia |].
  split; [now apply Analysis_parse_mbr_layout |].
  fold (real_entries (map (spec_entry mbr) (range 4))).
  rewrite real_entries_layout, map_map. fold (spec_real_slots mbr).
  apply map_ext_in. intros i Hi.
  apply filter_In in Hi. destruct Hi as [_ Hne].
  apply negb_true_iff in Hne.
  unfold partition_of_entry, spec_partition, spec_entry, spec_size_bytes.
  cbn [Simple.index Simple.boot Simple.ptype Simple.lba Simple.sectors
         Simple.size_gb].
  now rewrite Hne.
Qed.

(** The theorem at a sector with partitions in slots 0, 1 and 3. *)
Lemma second_analyser_keeps_real_entries_witness :
  List.length sample_three = 512%nat
  /\ exists es ps out',
       Simple.parse_mbr sample_three = inr es
       /\ Analysis.parse_mbr sample_three [] = (inr ps, out')
       /\ ps = map partition_of_entry
                 (filter (fun e => negb (Simple.empty e)) es).
Proof.
  split; [reflexivity |].
  apply (second_analyser_keeps_real_entries sample_three []). reflexivity.
Defined.

(** ** Labels and codes *)

Lemma description_suffix_all_bytes (code : N) :
  code <= 255 ->
  ends_with (Analysis.type_description code) ("(0x" ++ fmt_02X code ++ ")")
  = true.
Proof.
  apply (byte_cases
           (fun c => ends_with (Analysis.type_description c)
                       ("(0x" ++ fmt_02X c ++ ")"))).
  vm_compute. reflexivity.
Qed.

Lemma hex_round_trip_all_bytes (code : N) :
  code <= 255 ->
  match hex_value (fmt_02X code) with
  | Some v => v =? code
  | None => false
  end = true.
Proof.
  apply (byte_cases
           (fun c => match hex_value (fmt_02X c) with
                     | Some v => v =? c
                     | None => false
                     end)).
  vm_compute. reflexivity.
Qed.

(** X11: every label of [type_description], from the table or from the
    fallback, ends with the type code it was given, in parentheses, as
    [0x] and the two upper-case hexadecimal digits of the code. *)
Theorem descriptions_end_with_their_code (code : N) :
  code <= 255 ->
  ends_with (Analysis.type_description code) ("(0x" ++ fmt_02X code ++ ")")
  = true
  /\ String.length (fmt_02X code) = 2%nat
  /\ hex_value (fmt_02X code) = Some code.
Proof.
  intros Hbyte.
  split; [now apply description_suffix_all_bytes |].
  pose proof (hex_round_trip_all_bytes code Hbyte) as Hhex.
  destruct (hex_value (fmt_02X code)) as [v |] eqn:E; [| discriminate Hhex].
  apply N.eqb_eq in Hhex. subst v.
  split; [| reflexivity].
  pose proof (byte_cases
                (fun c => Nat.eqb (String.length (fmt_02X c)) 2)
                ltac:(vm_compute; reflexivity) code Hbyte) as Hlen.
  now apply Nat.eqb_eq in Hlen.
Qed.

(** The theorem at the type code of an extended partition and at that of
    Linux. *)
Lemma descriptions_end_with_their_code_witness :
  0x0F <= 255 /\ 0x83 <= 255
  /\ ends_with (Analysis.type_description 0x0F) "(0x0F)" = true
  /\ ends_with (Analysis.type_description 0x83) "(0x83)" = true.
Proof.
  assert (H1 : 0x0F <= 255) by (vm_compute; discriminate).
  assert (H2 : 0x83 <= 255) by (vm_compute; discriminate).
  split; [exact H1 |]. split; [exact H2 |].
  split.
  - exact (proj1 (descriptions_end_with_their_code 0x0F H1)).
  - exact (proj1 (descriptions_end_with_their_code 0x83 H2)).
Defined.

(** ** Bytes the decoders never use *)

Section FieldBytes.

Variables m1 m2 : bytes.
Hypothesis same_fields : field_bytes m1 = field_bytes m2.

Lemma field_byte_agree (i d : nat) :
  (i < 4)%nat -> In d field_offsets ->
  spec_byte_at m1 (446 + 16 * i + d) = spec_byte_at m2 (446 + 16 * i + d).
Proof.
  intros Hi Hd. unfold spec_byte_at. f_equal.
  unfold field_bytes in same_fields.
  apply (proj1 (@map_ext_in_iff _ _ (fun k => nth k m1 x00)
                  (fun k => nth k m2 x00) field_positions) same_fields).
  unfold field_positions. apply in_flat_map. exists i. split.
  - apply in_seq. lia.
  - now apply in_map.
Qed.

Lemma field_le32_agree (i d : nat) :
  (i < 4)%nat ->
  In d field_offsets -> In (d + 1)%nat field_offsets ->
  In (d + 2)%nat field_offsets -> In (d + 3)%nat field_offsets ->
  spec_le32_at m1 (446 + 16 * i + d) = spec_le32_at m2 (446 + 16 * i + d).
Proof.
  intros Hi H0 H1 H2 H3. unfold spec_le32_at.
  replace (446 + 16 * i + d + 1)%nat with (446 + 16 * i + (d + 1))%nat by lia.
  replace (446 + 16 * i + d + 2)%nat with (446 + 16 * i + (d + 2))%nat by lia.
  replace (446 + 16 * i + d + 3)%nat with (446 + 16 * i + (d + 3))%nat by lia.
  now rewrite !field_byte_agree.
Qed.

Lemma field_slots_agree (i : nat) :
  (i < 4)%nat ->
  spec_status m1 i = spec_status m2 i
  /\ spec_type_code m1 i = spec_type_code m2 i
  /\ spec_start_lba m1 i = spec_start_lba m2 i
  /\ spec_sector_count m1 i = spec_sector_count m2 i.
Proof.
  intros Hi.
  unfold spec_status, spec_type_code, spec_start_lba, spec_sector_count.
  repeat split.
  - replace (446 + 16 * i)%nat with (446 + 16 * i + 0)%nat by lia.
    apply field_byte_agree; [exact Hi | cbn; tauto].
  - apply field_byte_agree; [exact Hi | cbn; tauto].
  - apply field_le32_agree; try exact Hi; cbn; tauto.
  - apply field_le32_agree; try exact Hi; cbn; tauto.
Qed.

Lemma field_entries_agree :
  map (spec_entry m1) (range 4) = map (spec_entry m2) (range 4).
Proof.
  apply map_ext_in. intros i Hi. apply in_seq in Hi.
  destruct (field_slots_agree i ltac:(lia)) as (Hs & Ht & Hl & Hn).
  unfold spec_entry, spec_size_gib, spec_size_bytes, spec_is_empty.
  now rewrite Hs, Ht, Hl, Hn.
Qed.

Lemma field_partitions_agree :
  map (spec_partition m1) (spec_real_slots m1)
  = map (spec_partition m2) (spec_real_slots m2).
Proof.
  assert (Hslots : spec_real_slots m1 = spec_real_slots m2).
  { unfold spec_real_slots. apply filter_ext_in. intros i Hi.
    apply in_seq in Hi.
    destruct (field_slots_agree i ltac:(lia)) as (_ & Ht & _ & Hn).
    unfold spec_is_empty. now rewrite Ht, Hn. }
  rewrite Hslots. apply map_ext_in. intros i Hi.
  apply filter_In in Hi. destruct Hi as [Hi _]. apply in_seq in Hi.
  destruct (field_slots_agree i ltac:(lia)) as (Hs & Ht & Hl & Hn).
  unfold spec_partition, spec_size_gib, spec_size_bytes, spec_is_empty.
  now rewrite Hs, Ht, Hl, Hn.
Qed.

End FieldBytes.

(** X5: the decoders use ten bytes of each 16-byte slot: the status, the
    type code, the start LBA and the sector count.  Two 512-byte sectors
    that agree on these forty bytes decode to the same entries: the CHS
    addresses (offsets 1-3 and 5-7 of a slot) change nothing, nor does
    any byte outside the table. *)
Theorem chs_bytes_are_ignored (m1 m2 : bytes) (out1 out2 : stdout) :
  List.length m1 = 512%nat ->
  List.length m2 = 512%nat ->
  field_bytes m1 = field_bytes m2 ->
  exists es ps out1' out2',
    Simple.parse_mbr m1 = inr es /\ Simple.parse_mbr m2 = inr es
    /\ Analysis.parse_mbr m1 out1 = (inr ps, out1')
    /\ Analysis.parse_mbr m2 out2 = (inr ps, out2').
Proof.
  intros H1 H2 Hsame.
  exists (map (spec_entry m2) (range 4)),
    (map (spec_partition m2) (spec_real_slots m2)),
    (out1 ++ spec_parse_output m1)%list,
    (out2 ++ spec_parse_output m2)%list.
  rewrite <- (field_entries_agree m1 m2 Hsame).
  rewrite <- (field_partitions_agree m1 m2 Hsame).
  repeat split.
  - apply Simple_parse_mbr_layout. lia.
  - rewrite (field_entries_agree m1 m2 Hsame).
    apply Simple_parse_mbr_layout. lia.
  - now apply Analysis_parse_mbr_layout.
  - rewrite (field_partitions_agree m1 m2 Hsame).
    now apply Analysis_parse_mbr_layout.
Qed.

(** The theorem at two sectors with the same Linux partition, one with
    zeroed CHS addresses and one with CHS addresses filled in. *)
Lemma chs_bytes_are_ignored_witness :
  List.length sample_linux = 512%nat
  /\ List.length sample_linux_chs = 512%nat
  /\ field_bytes sample_linux = field_bytes sample_linux_chs
  /\ slice sample_linux 446 510 <> slice sample_linux_chs 446 510
  /\ exists es ps out1' out2',
       Simple.parse_mbr sample_linux = inr es
       /\ Simple.parse_mbr sample_linux_chs = inr es
       /\ Analysis.parse_mbr sample_linux [] = (inr ps, out1')
       /\ Analysis.parse_mbr sample_linux_chs [] = (inr ps, out2').
Proof.
  split; [reflexivity |]. split; [reflexivity |]. split; [reflexivity |].
  split; [intros H; vm_compute in H; discriminate H |].
  apply (chs_bytes_are_ignored sample_linux sample_linux_chs [] []);
    reflexivity.
Defined.

(** ** What the reports print *)

Section Printed.

Lemma ext_refl (out : stdout) : exists p, out = (out ++ p)%list.
Proof. exists []. now rewrite app_nil_r. Qed.

Lemma ext_snoc (out o l : stdout) :
  (exists p, o = (out ++ p)%list) -> exists p, (o ++ l = out ++ p)%list.
Proof. intros [p ->]. exists (p ++ l)%list. now rewrite app_assoc. Qed.

Lemma ext_result {A} (r : result A) (out o : stdout) :
  (exists p, o = (out ++ p)%list) ->
  exists printed, (r, o) = (r, (out ++ printed)%list).
Proof. intros [p ->]. now exists p. Qed.

Lemma ext_tail {A} (r : result A) (out o final tail : stdout) :
  final = (o ++ tail)%list ->
  (exists p, o = (out ++ p)%list) ->
  exists printed, (r, final) = (r, (out ++ printed ++ tail)%list).
Proof. intros -> [p ->]. exists p. now rewrite app_assoc. Qed.

Lemma snoc2 (o : stdout) (a b : string) :
  ((o ++ [a]) ++ [b] = o ++ [a; b])%list.
Proof. now rewrite <- !app_assoc. Qed.

Lemma snoc3 (o : stdout) (a b c : string) :
  (((o ++ [a]) ++ [b]) ++ [c] = o ++ [a; b; c])%list.
Proof. now rewrite <- !app_assoc. Qed.

Lemma snoc5 (o : stdout) (a b c d e : string) :
  (((((o ++ [a]) ++ [b]) ++ [c]) ++ [d]) ++ [e] = o ++ [a; b; c; d; e])%list.
Proof. now rewrite <- !app_assoc. Qed.

(** A loop whose body only adds lines to the output only adds lines. *)
Lemma for_inM_appends {A S} (xs : list A) (body : S -> A -> M S) :
  (forall s x out,
      exists s' printed, body s x out = (inr s', (out ++ printed)%list)) ->
  forall s out,
    exists s' printed, for_inM xs body s out = (inr s', (out ++ printed)%list).
Proof.
  intros Hbody. induction xs as [| x xs IH]; intros s out; cbn [for_inM].
  - exists s, []. unfold ret. now rewrite app_nil_r.
  - destruct (Hbody s x out) as (s1 & p1 & H1).
    rewrite (bind_run _ _ _ _ _ H1).
    destruct (IH s1 (out ++ p1)%list) as (s2 & p2 & H2).
    exists s2, (p1 ++ p2)%list. rewrite H2. now rewrite app_assoc.
Qed.

Lemma Simple_print_entry_appends (real_parts : list Simple.entry) (i : nat)
  (p : Simple.entry) (out : stdout) :
  exists printed,
    Simple.print_entry real_parts (i, p) out =
    (inr (if Simple.empty p then real_parts else real_parts ++ [p])%list,
     (out ++ printed)%list).
Proof.
  unfold Simple.print_entry. rewrite !bind_print.
  destruct (Simple.empty p); rewrite !bind_print; unfold ret;
    apply ext_result; repeat apply ext_snoc; apply ext_refl.
Qed.

(** The loop of lines 236-249 collects the entries that are not empty
    and only adds lines to the output. *)
Lemma Simple_print_loop_appends (es : list Simple.entry) :
  forall (start : nat) (acc : list Simple.entry) (out : stdout),
  exists printed,
    for_inM (combine (seq start (List.length es)) es) Simple.print_entry
      acc out
    = (inr (acc ++ real_entries es)%list, (out ++ printed)%list).
Proof.
  induction es as [| e es IH]; intros start acc out;
    cbn [List.length seq combine for_inM].
  - exists []. unfold ret, real_entries. cbn [filter].
    now rewrite !app_nil_r.
  - destruct (Simple_print_entry_appends acc start e out) as [p1 H1].
    rewrite (bind_run _ _ _ _ _ H1).
    destruct (IH (S start)
                (if Simple.empty e then acc else (acc ++ [e])%list)
                (out ++ p1)%list)
      as [p2 H2].
    exists (p1 ++ p2)%list. rewrite H2, app_assoc. f_equal. f_equal.
    unfold real_entries. cbn [filter].
    destruct (Simple.empty e); cbn [negb]; [reflexivity |].
    now rewrite <- app_assoc.
Qed.

Lemma Analysis_print_block_appends (u : unit) (ip : nat * Analysis.partition)
  (out : stdout) :
  exists s' printed,
    Analysis.print_block u ip out = (inr s', (out ++ printed)%list).
Proof.
  destruct ip as [idx p]. unfold Analysis.print_block.
  rewrite !bind_print. unfold print. exists tt.
  apply ext_result; repeat apply ext_snoc; apply ext_refl.
Qed.

(** [xs.index(x)] is the first position of [x] when no earlier element
    is equal to it. *)
Lemma list_index_first {A} (eqb : A -> A -> bool) (x : A) :
  eqb x x = true ->
  forall (xs : list A) (k : nat),
    nth_error xs k = Some x ->
    (forall j q, (j < k)%nat -> nth_error xs j = Some q -> eqb q x = false) ->
    list_index eqb x xs = inr k.
Proof.
  intros Hrefl. induction xs as [| y xs IH]; intros k Hk Hbefore.
  - destruct k; discriminate Hk.
  - cbn [list_index]. destruct k as [| k].
    + injection Hk as ->. now rewrite Hrefl.
    + rewrite (Hbefore 0%nat y ltac:(lia) eq_refl).
      rewrite (IH k Hk); [reflexivity |].
      intros j q Hj Hq. apply (Hbefore (S j) q); [lia | exact Hq].
Qed.

Lemma partition_eqb_size (p q : Analysis.partition) :
  Analysis.size_bytes p <> Analysis.size_bytes q ->
  Analysis.partition_eqb p q = false.
Proof.
  intros Hne. unfold Analysis.partition_eqb.
  apply N.eqb_neq in Hne. rewrite Hne.
  now rewrite andb_false_r.
Qed.

(** The run of [print_partition_info] on a list that is not empty: the
    lines of the partitions, then the three lines of the summary. *)
Lemma Analysis_print_partition_info_run (p : Analysis.partition)
  (rest : list Analysis.partition) (out : stdout) :
  let partitions := p :: rest in
  let largest := py_max Analysis.size_bytes int_gt p rest in
  forall k,
    list_index Analysis.partition_eqb largest partitions = inr k ->
    exists printed,
      Analysis.print_partition_info partitions out =
      (inr tt,
       (out ++ printed
        ++ ["=== Summary ===";
            ("  Total real partitions found : "
             ++ str_nat (List.length partitions))%string;
            ("  Largest partition           : #" ++ str_nat (k + 1)
             ++ " (" ++ fmt_2f (Analysis.size_gb largest) ++ " GB, type "
             ++ Analysis.type_description (Analysis.type largest)
             ++ ")")%string])%list).
Proof.
  intros partitions largest k Hk.
  unfold Analysis.print_partition_info. rewrite bind_print.
  cbn [Analysis.largestPartition partitions].
  fold partitions. fold largest.
  match goal with
  | |- context [bind (for_inM ?xs ?body ?s) _ ?o] =>
      destruct (for_inM_appends xs body Analysis_print_block_appends s o)
        as ([] & p1 & H1)
  end.
  rewrite (bind_run _ _ _ _ _ H1). rewrite Hk.
  destruct (Analysis.secondRealPartition partitions);
    repeat (rewrite bind_assoc_run || rewrite bind_print);
    rewrite bind_lift_inr, !bind_print; unfold print;
    (eapply ext_tail; [apply snoc3 |]);
    repeat apply ext_snoc; apply ext_refl.
Qed.

Lemma Analysis_print_partition_info_appends
  (partitions : list Analysis.partition) (out : stdout) :
  exists printed,
    Analysis.print_partition_info partitions out
    = (inr tt, (out ++ printed)%list).
Proof.
  destruct partitions as [| p rest].
  - unfold Analysis.print_partition_info. rewrite bind_print.
    cbn [Analysis.largestPartition]. unfold print.
    apply ext_result; repeat apply ext_snoc; apply ext_refl.
  - destruct (list_index_found Analysis.partition_eqb
                (py_max Analysis.size_bytes int_gt p rest) (p :: rest)
                (partition_eqb_refl _)
                (py_max_in Analysis.size_bytes int_gt p rest)) as [k Hk].
    destruct (Analysis_print_partition_info_run p rest out k Hk)
      as [printed Hrun].
    rewrite Hrun. eexists. reflexivity.
Qed.

Lemma Analysis_parse_mbr_bad_length (mbr : bytes) (out : stdout) :
  List.length mbr <> 512%nat ->
  Analysis.parse_mbr mbr out
  = (inl (ValueError "MBR must be exactly 512 bytes"), out).
Proof.
  intros Hlen. unfold Analysis.parse_mbr.
  assert (Hn : negb (N.of_nat (List.length mbr) =? Analysis.SECTOR_SIZE)
               = true).
  { apply negb_true_iff, N.eqb_neq. unfold Analysis.SECTOR_SIZE. lia. }
  now rewrite Hn.
Qed.

Lemma Analysis_analyze_image_appends (fs : filesystem) (path : string)
  (content : bytes) (out : stdout) :
  fs path = Some content ->
  (512 <= List.length content)%nat ->
  exists printed,
    Analysis.analyze_image fs path out = (inr tt, (out ++ printed)%list).
Proof.
  intros Hfs Hlen. unfold Analysis.analyze_image. rewrite Hfs.
  rewrite !bind_print.
  rewrite (bind_run _ _ _ _ _
             (Analysis_parse_mbr_layout _ _
                (read_first_length content 512 Hlen))).
  match goal with
  | |- context [Analysis.print_partition_info ?ps ?o] =>
      destruct (Analysis_print_partition_info_appends ps o) as [p1 H1]
  end.
  rewrite H1. apply ext_result; repeat apply ext_snoc; apply ext_refl.
Qed.

Lemma slice_firstn (b : bytes) (n lo hi : nat) :
  (hi <= n)%nat -> slice (firstn n b) lo hi = slice b lo hi.
Proof.
  intros Hn. unfold slice.
  rewrite skipn_firstn_comm, firstn_firstn.
  now replace (Nat.min (hi - lo) (n - lo)) with (hi - lo)%nat by lia.
Qed.

(** The run of [analyze] of the first analyser up to the heading of the
    second real partition. *)
Lemma Simple_analyze_prefix (fs : filesystem) (path : string)
  (content : bytes) (es : list Simple.entry) (out : stdout) :
  fs path = Some content ->
  Simple.parse_mbr (read_first content 512) = inr es ->
  exists o,
    (exists p, o = (out ++ p)%list)
    /\ Simple.analyze fs path out =
       bind
         match Simple.secondRealPartition (real_entries es) with
         | Some p =>
             bind (print ("  MBR Index   : " ++ str_nat (Simple.index p)))
               (fun _ =>
                  bind (print ("  Type        : "
                               ++ Simple.type_name (Simple.ptype p)))
                    (fun _ =>
                       bind (print ("  Start LBA   : "
                                    ++ str_int (Simple.lba p)))
                         (fun _ =>
                            print ("  Size (GB)   : "
                                   ++ fmt_2f (Simple.size_gb p)))))
         | None => print "  Only one real partition found."
         end
         (fun _ =>
            match Simple.largestPartition (real_entries es) with
            | Some biggest =>
                bind (print (NL ++ "=== Summary ==="))
                  (fun _ =>
                     bind (print ("  Real partitions: "
                                  ++ str_nat (List.length (real_entries es))))
                       (fun _ =>
                          print ("  Largest type   : "
                                 ++ Simple.type_name (Simple.ptype biggest)
                                 ++ " (" ++ fmt_2f (Simple.size_gb biggest)
                                 ++ " GB)")))
            | None => ret tt
            end)
         (o ++ [(NL ++ "=== Second Real Partition ===")%string])%list.
Proof.
  intros Hfs Hparse. unfold Simple.analyze. rewrite Hfs.
  rewrite bind_print.
  change (N.to_nat Simple.SECTOR_SIZE) with 512%nat. rewrite Hparse.
  rewrite bind_lift_inr, bind_print.
  match goal with
  | |- context [bind (for_inM ?xs ?body ?st) _ ?o] =>
      assert (Hbody : forall s x out0,
                 exists s' printed,
                   body s x out0 = (inr s', (out0 ++ printed)%list))
        by (intros [] [i p] out0; unfold print; now eexists _, _);
      destruct (for_inM_appends xs body Hbody st o) as ([] & p1 & H1)
  end.
  rewrite (bind_run _ _ _ _ _ H1), !bind_print.
  match goal with
  | |- context [bind (for_inM (enumerate ?l 1) _ _) _ ?o] =>
      destruct (Simple_print_loop_appends l 1 [] o) as [p2 H2]
  end.
  unfold enumerate. rewrite (bind_run _ _ _ _ _ H2), bind_print.
  cbn [app].
  eexists. split; [| reflexivity].
  repeat apply ext_snoc; apply ext_refl.
Qed.

End Printed.

Lemma Simple_analyze_appends (fs : filesystem) (path : string)
  (content : bytes) (out : stdout) :
  fs path = Some content ->
  (510 <= List.length content)%nat ->
  exists printed,
    Simple.analyze fs path out = (inr tt, (out ++ printed)%list).
Proof.
  intros Hfs Hlen.
  assert (Hparse : Simple.parse_mbr (read_first content 512)
                   = inr (map (spec_entry (read_first content 512))
                            (range 4))).
  { apply Simple_parse_mbr_layout. unfold read_first.
    rewrite length_firstn. lia. }
  destruct (Simple_analyze_prefix fs path content _ out Hfs Hparse)
    as (o & Ho & Hrun).
  rewrite Hrun.
  destruct (Simple.secondRealPartition _);
    repeat (rewrite bind_assoc_run || rewrite bind_print);
    destruct (Simple.largestPartition _);
    rewrite ?bind_print; unfold print, ret;
    apply ext_result; repeat apply ext_snoc; exact Ho.
Qed.

(** ** Runs that fail, and what the reports depend on *)

(** X6: [main] of the second analyser never ends with an exception: for
    every file system and every path it returns normally, and it only
    adds lines to what was printed before. *)
Theorem main_never_raises (fs : filesystem) (path : string) (out : stdout) :
  exists printed,
    Analysis.main fs path out = (inr tt, (out ++ printed)%list).
Proof.
  unfold Analysis.main.
  destruct (fs path) as [content |] eqn:Hfs.
  - destruct (Nat.lt_ge_cases (List.length content) 512) as [Hs | Hl].
    + assert (Hrun : exists printed e,
                 Analysis.analyze_image fs path out
                 = (inl e, (out ++ printed)%list)).
      { unfold Analysis.analyze_image. rewrite Hfs, !bind_print.
        assert (Hbad : List.length
                         (read_first content
                            (N.to_nat Analysis.SECTOR_SIZE)) <> 512%nat).
        { unfold read_first. rewrite length_firstn. cbn. lia. }
        rewrite (bind_raise _ _ _ _ _
                   (Analysis_parse_mbr_bad_length _ _ Hbad)).
        eexists _, _. rewrite <- app_assoc. reflexivity. }
      destruct Hrun as (printed & e & ->). unfold print.
      apply ext_result; repeat apply ext_snoc; apply ext_refl.
    + destruct (Analysis_analyze_image_appends fs path content out Hfs Hl)
        as [printed ->].
      now exists printed.
  - unfold Analysis.analyze_image. rewrite Hfs. unfold raise, print.
    apply ext_result; repeat apply ext_snoc; apply ext_refl.
Qed.

(** X7: a path that names no regular file.  [analyze] of the first and
    third analysers prints "Image not found." and returns normally;
    [analyze_image] of the second raises [FileNotFoundError] with the
    path in its message before it prints anything, and [main] turns the
    error into one line of the report. *)
Theorem missing_image_is_reported (fs : filesystem) (path : string)
  (out : stdout) :
  fs path = None ->
  Simple.analyze fs path out = (inr tt, (out ++ ["Image not found."])%list)
  /\ Compact.analyze fs path out
     = (inr tt, (out ++ ["Image not found."])%list)
  /\ Analysis.analyze_image fs path out
     = (inl (FileNotFoundError ("Image not found: " ++ path)), out)
  /\ Analysis.main fs path out
     = (inr tt,
        (out ++ [("[!] Error: Image not found: " ++ path)%string])%list).
Proof.
  intros Hfs.
  unfold Analysis.main, Analysis.analyze_image, Simple.analyze,
    Compact.analyze.
  rewrite Hfs. repeat split.
Qed.

(** The theorem at a file system with one image, asked for another
    path. *)
Lemma missing_image_is_reported_witness :
  sample_fs sample_linux "other.dd" = None
  /\ Analysis.main (sample_fs sample_linux) "other.dd" []
     = (inr tt, ["[!] Error: Image not found: other.dd"]).
Proof.
  split; [reflexivity |].
  apply (missing_image_is_reported (sample_fs sample_linux) "other.dd" []).
  reflexivity.
Defined.

(** X8: [analyze] of the first and third analysers on an image that
    exists.  With fewer than 510 bytes the run ends with [struct.error]
    raised by the decoder, after the line that names the image and
    nothing else; nothing catches the error.  With 510 bytes or more it
    returns normally and only adds lines to the output. *)
Theorem analyze_fails_below_510_bytes (fs : filesystem) (path : string)
  (content : bytes) (out : stdout) :
  fs path = Some content ->
  let failure := struct_error "unpack requires a buffer of 16 bytes" in
  let opened := ("Opened image: " ++ path ++ NL)%string in
  ((List.length content < 510)%nat ->
   Simple.analyze fs path out = (inl failure, (out ++ [opened])%list)
   /\ Compact.analyze fs path out = (inl failure, (out ++ [opened])%list))
  /\ ((510 <= List.length content)%nat ->
      exists printed,
        Simple.analyze fs path out = (inr tt, (out ++ printed)%list)
        /\ Compact.analyze fs path out = (inr tt, (out ++ printed)%list)).
Proof.
  intros Hfs failure opened. split.
  - intros Hlen.
    assert (Hrun : Simple.analyze fs path out
                   = (inl failure, (out ++ [opened])%list)).
    { unfold Simple.analyze. rewrite Hfs, bind_print.
      rewrite Simple_parse_mbr_short; [reflexivity |].
      unfold read_first. rewrite length_firstn. lia. }
    split; [exact Hrun |].
    change (Compact.analyze fs path out) with (Simple.analyze fs path out).
    exact Hrun.
  - intros Hlen.
    destruct (Simple_analyze_appends fs path content out Hfs Hlen)
      as [printed Hrun].
    exists printed. split; [exact Hrun |].
    change (Compact.analyze fs path out) with (Simple.analyze fs path out).
    exact Hrun.
Qed.

(** The theorem at an image of 509 bytes. *)
Lemma analyze_fails_below_510_bytes_witness :
  sample_fs sample_too_short "image.dd" = Some sample_too_short
  /\ (List.length sample_too_short < 510)%nat
  /\ Simple.analyze (sample_fs sample_too_short) "image.dd" []
     = (inl (struct_error "unpack requires a buffer of 16 bytes"),
        [("Opened image: image.dd" ++ NL)%string]).
Proof.
  split; [reflexivity |]. split; [cbn; lia |].
  apply (analyze_fails_below_510_bytes (sample_fs sample_too_short)
           "image.dd" sample_too_short [] eq_refl).
  cbn. lia.
Defined.

(** X9: the report of the first and third analysers depends on the image
    through the 64 bytes of the partition table only: two images of at
    least 510 bytes with the same bytes 446-509 give the same report,
    line for line, whatever their boot code, their signature and what
    follows the first sector. *)
Theorem analyze_reads_table_only (fs1 fs2 : filesystem) (path : string)
  (c1 c2 : bytes) (out : stdout) :
  fs1 path = Some c1 ->
  fs2 path = Some c2 ->
  (510 <= List.length c1)%nat ->
  (510 <= List.length c2)%nat ->
  slice c1 446 510 = slice c2 446 510 ->
  Simple.analyze fs1 path out = Simple.analyze fs2 path out
  /\ Compact.analyze fs1 path out = Compact.analyze fs2 path out.
Proof.
  intros Hfs1 Hfs2 Hlen1 Hlen2 Htable.
  assert (Hl : forall c : bytes,
             (510 <= List.length c)%nat ->
             (510 <= List.length (read_first c 512))%nat).
  { intros c Hc. unfold read_first. rewrite length_firstn. lia. }
  assert (Hparse : Simple.parse_mbr (read_first c1 512)
                   = Simple.parse_mbr (read_first c2 512)).
  { rewrite !Simple_parse_mbr_layout by now apply Hl.
    f_equal. apply spec_entries_agree; try now apply Hl.
    unfold read_first. now rewrite !slice_firstn by lia. }
  assert (Hrun : Simple.analyze fs1 path out = Simple.analyze fs2 path out).
  { unfold Simple.analyze. rewrite Hfs1, Hfs2, !bind_print.
    change (N.to_nat Simple.SECTOR_SIZE) with 512%nat.
    now rewrite Hparse. }
  split; [exact Hrun |].
  change (Compact.analyze fs1 path out = Compact.analyze fs2 path out)
    with (Simple.analyze fs1 path out = Simple.analyze fs2 path out).
  exact Hrun.
Qed.

(** The theorem at two sectors with the same table, one signed and one
    unsigned with other boot code. *)
Lemma analyze_reads_table_only_witness :
  sample_two_equal <> sample_unsigned
  /\ slice sample_two_equal 446 510 = slice sample_unsigned 446 510
  /\ Simple.analyze (sample_fs sample_two_equal) "image.dd" []
     = Simple.analyze (sample_fs sample_unsigned) "image.dd" [].
Proof.
  split; [intros H; vm_compute in H; discriminate H |].
  split; [reflexivity |].
  apply (analyze_reads_table_only (sample_fs sample_two_equal)
           (sample_fs sample_unsigned) "image.dd"
           sample_two_equal sample_unsigned []);
    try reflexivity; cbn; lia.
Defined.

(** X10: the summary of [print_partition_info] for a list that is not
    empty.  The last three lines of the report are the summary; the
    number after "#" is one more than the position, in the list, of the
    first partition of greatest size in bytes: every partition before it
    is strictly smaller and none is larger.  It is a position in the
    list of real partitions, not an index in the MBR table. *)
Theorem summary_names_first_largest (partitions : list Analysis.partition)
  (out : stdout) :
  partitions <> [] ->
  exists k largest printed,
    nth_error partitions k = Some largest
    /\ (forall q, In q partitions ->
                  Analysis.size_bytes q <= Analysis.size_bytes largest)
    /\ (forall j q, (j < k)%nat -> nth_error partitions j = Some q ->
                    Analysis.size_bytes q < Analysis.size_bytes largest)
    /\ Analysis.print_partition_info partitions out =
       (inr tt,
        (out ++ printed
         ++ ["=== Summary ===";
             ("  Total real partitions found : "
              ++ str_nat (List.length partitions))%string;
             ("  Largest partition           : #" ++ str_nat (k + 1)
              ++ " (" ++ fmt_2f (Analysis.size_gb largest) ++ " GB, type "
              ++ Analysis.type_description (Analysis.type largest)
              ++ ")")%string])%list).
Proof.
  intros Hne. destruct partitions as [| p rest]; [contradiction |].
  pose proof (Analysis_largest_first_greatest (p :: rest)) as Hmax.
  cbn [Analysis.largestPartition] in Hmax.
  destruct Hmax as (k & Hk & Hle & Hlt).
  set (largest := py_max Analysis.size_bytes int_gt p rest) in *.
  assert (Hidx : list_index Analysis.partition_eqb largest (p :: rest)
                 = inr k).
  { apply list_index_first; [apply partition_eqb_refl | exact Hk |].
    intros j q Hj Hq. apply partition_eqb_size.
    specialize (Hlt j q Hj Hq). lia. }
  destruct (Analysis_print_partition_info_run p rest out k Hidx)
    as [printed Hrun].
  exists k, largest, printed. repeat split; assumption.
Qed.

(** The theorem at the two partitions of equal size of a sector: the
    summary names the first. *)
Lemma summary_names_first_largest_witness :
  exists ps out',
    Analysis.parse_mbr sample_two_equal [] = (inr ps, out')
    /\ ps <> []
    /\ exists k largest printed,
         nth_error ps k = Some largest
         /\ (forall j q, (j < k)%nat -> nth_error ps j = Some q ->
                         Analysis.size_bytes q < Analysis.size_bytes largest)
         /\ fst (Analysis.print_partition_info ps []) = inr tt
         /\ snd (Analysis.print_partition_info ps [])
            = (printed
               ++ ["=== Summary ===";
                   ("  Total real partitions found : "
                    ++ str_nat (List.length ps))%string;
                   ("  Largest partition           : #" ++ str_nat (k + 1)
                    ++ " (" ++ fmt_2f (Analysis.size_gb largest)
                    ++ " GB, type "
                    ++ Analysis.type_description (Analysis.type largest)
                    ++ ")")%string])%list.
Proof.
  assert (Hne : map (spec_partition sample_two_equal)
                  (spec_real_slots sample_two_equal) <> []).
  { intros H. vm_compute in H. discriminate H. }
  exists (map (spec_partition sample_two_equal)
            (spec_real_slots sample_two_equal)),
    ([] ++ spec_parse_output sample_two_equal)%list.
  split; [now apply Analysis_parse_mbr_layout |].
  split; [exact Hne |].
  destruct (summary_names_first_largest _ [] Hne)
    as (k & largest & printed & Hk & _ & Hlt & Hrun).
  exists k, largest, printed.
  split; [exact Hk |]. split; [exact Hlt |].
  rewrite Hrun. split; reflexivity.
Defined.

(** X17: [analyze] of the first and third analysers when the decoded
    table has fewer than two entries that are not empty.  The report
    ends with the heading of the second real partition and the line
    "Only one real partition found.", printed also when there is no
    real partition at all; a summary follows only when there is one
    real partition, which is then the largest. *)
Theorem one_partition_message_covers_none (fs : filesystem) (path : string)
  (content : bytes) (es : list Simple.entry) (out : stdout) :
  fs path = Some content ->
  Simple.parse_mbr (read_first content 512) = inr es ->
  (List.length (real_entries es) < 2)%nat ->
  exists printed,
    Simple.analyze fs path out =
    (inr tt,
     (out ++ printed
      ++ [(NL ++ "=== Second Real Partition ===")%string;
          "  Only one real partition found."]
      ++ match real_entries es with
         | [] => []
         | e :: _ =>
             [(NL ++ "=== Summary ===")%string;
              "  Real partitions: 1";
              ("  Largest type   : " ++ Simple.type_name (Simple.ptype e)
               ++ " (" ++ fmt_2f (Simple.size_gb e) ++ " GB)")%string]
         end)%list).
Proof.
  intros Hfs Hparse Hfew.
  destruct (Simple_analyze_prefix fs path content es out Hfs Hparse)
    as (o & Ho & Hrun).
  rewrite Hrun. clear Hrun.
  destruct (real_entries es) as [| e [| e2 rest]];
    [| | cbn [List.length] in Hfew; lia].
  - unfold Simple.secondRealPartition, Simple.largestPartition.
    cbn [List.length Nat.leb]. rewrite bind_print. unfold ret.
    cbn [app].
    eapply ext_tail; [apply snoc2 | exact Ho].
  - unfold Simple.secondRealPartition, Simple.largestPartition, py_max.
    cbn [List.length Nat.leb fold_left]. rewrite !bind_print. unfold print.
    change (str_nat 1) with "1".
    cbn [app].
    eapply ext_tail; [apply snoc5 | exact Ho].
Qed.

(** The theorem at a sector of 512 zero bytes: no real partition, and
    the report ends with "Only one real partition found.". *)
Lemma one_partition_message_covers_none_witness :
  exists es printed,
    Simple.parse_mbr (read_first sample_blank 512) = inr es
    /\ real_entries es = []
    /\ Simple.analyze (sample_fs sample_blank) "image.dd" [] =
       (inr tt,
        (printed
         ++ [(NL ++ "=== Second Real Partition ===")%string;
             "  Only one real partition found."])%list).
Proof.
  assert (Hparse : Simple.parse_mbr (read_first sample_blank 512)
                   = inr (map (spec_entry sample_blank) (range 4))).
  { vm_compute. reflexivity. }
  assert (Hreal : real_entries (map (spec_entry sample_blank) (range 4))
                  = []).
  { vm_compute. reflexivity. }
  assert (Hfew : (List.length
                    (real_entries (map (spec_entry sample_blank) (range 4)))
                  < 2)%nat).
  { rewrite Hreal. cbn. lia. }
  destruct (one_partition_message_covers_none (sample_fs sample_blank)
              "image.dd" sample_blank _ [] eq_refl Hparse Hfew)
    as [printed Hrun].
  rewrite Hreal in Hrun. rewrite app_nil_r in Hrun.
  exists (map (spec_entry sample_blank) (range 4)), printed.
  split; [exact Hparse |]. split; [exact Hreal |]. exact Hrun.
Defined.
